(** * dara_opsc: footprint metrics and pass geometry

    A shallow embedding of the two Python scripts of the repository:

    - [src/metrics.py], the function [compute_product_metrics]
      (the "Footprint Metrics Engine", [compute_footprint] in the
      specification), in module [Metrics];
    - [data/.ipynb_checkpoints/test_cbor-checkpoint.py], from the TLE
      extraction to the records loop (the "Pass Geometry Engine",
      [compute_pass] in the specification), in module [PassData].

    Python values decoded from CBOR/JSON are the inductive [pyval]; raised
    exceptions are the [Raise] branch of [result].  The collaborators that
    live outside the repository (the [datetime] module, Skyfield) are the
    fields of a type class, one per module.

    Numbers.  [metrics.py] computes with [math.sin], [math.cos], [math.tan],
    [math.asin] and [math.sqrt]; its floats are embedded as real numbers
    (exact arithmetic: no rounding, no overflow, no NaN), and its literals
    [0.5], [2.0], [1000.0], [6371.0] and [1e6] are written [1 / 2], [2],
    [1000], [6371] and [1000000].  The pass script
    only compares a timestamp with zero before handing it to [datetime], so
    its floats are kept as IEEE binary64 values ([PrimFloat.float]), NaN and
    the infinities included. *)

From Stdlib Require Import Reals Lra Lia ZArith List String Ascii Bool DecimalString.
From Stdlib Require PrimFloat.
Import ListNotations.
Local Open Scope string_scope.
Set Warnings "-register-all,-inexact-float".

(** ** Exceptions and the error monad *)

Inductive exn : Type :=
| ValueError (msg : string)
| TypeError (msg : string)
| AttributeError (msg : string)
| KeyError (key : string)
| IndexError (msg : string)
| ZeroDivisionError (msg : string)
| OverflowError (msg : string)
| SystemExit (printed : string)
| LibraryError (msg : string).

Inductive result (A : Type) : Type :=
| Ok (a : A)
| Raise (e : exn).

Arguments Ok {A} a.
Arguments Raise {A} e.

Definition bind {A B : Type} (c : result A) (k : A -> result B) : result B :=
  match c with
  | Ok a => k a
  | Raise e => Raise e
  end.

Notation "x <- c ;; k" := (bind c (fun x => k))
  (at level 61, c at next level, right associativity).

(** ** Decoded values *)

(** A decoded CBOR/JSON document.  [F] is the carrier of Python [float].
    A [dict] is kept as the list of its items, keys pairwise distinct, in
    insertion order; only string keys occur in the recognised input shape. *)
Inductive pyval (F : Type) : Type :=
| VNone
| VBool (b : bool)
| VInt (z : Z)
| VFloat (x : F)
| VStr (s : string)
| VList (l : list (pyval F))
| VDict (d : list (string * pyval F)).

Arguments VNone {F}.
Arguments VBool {F} b.
Arguments VInt {F} z.
Arguments VFloat {F} x.
Arguments VStr {F} s.
Arguments VList {F} l.
Arguments VDict {F} d.

(** Lookup of a key among the items of a dict. *)
Fixpoint assoc {V : Type} (k : string) (d : list (string * V)) : option V :=
  match d with
  | [] => None
  | (k', v) :: d' => if String.eqb k k' then Some v else assoc k d'
  end.

(** [d.get(k, default)] on a dict given by its items. *)
Definition dict_get {V : Type} (d : list (string * V)) (k : string) (default : V) : V :=
  match assoc k d with
  | Some v => v
  | None => default
  end.

(** [v.get(k, default)]: only a dict has the method. *)
Definition method_get {F : Type} (v : pyval F) (k : string) (default : pyval F)
  : result (pyval F) :=
  match v with
  | VDict d => Ok (dict_get d k default)
  | _ => Raise (AttributeError "get")
  end.

(** [seq[i]] with Python's negative indices, on a list. *)
Definition list_index {A : Type} (l : list A) (i : Z) : option A :=
  let n := Z.of_nat (List.length l) in
  if (0 <=? i)%Z then nth_error l (Z.to_nat i)
  else if (0 <=? n + i)%Z then nth_error l (Z.to_nat (n + i))
  else None.

Definition chars (s : string) : list string :=
  map (fun c => String c EmptyString) (list_ascii_of_string s).

(** [v[i]] for an integer index [i]; the items of a dict have string keys,
    so an integer is never among them. *)
Definition py_getitem {F : Type} (v : pyval F) (i : Z) : result (pyval F) :=
  match v with
  | VList l =>
      match list_index l i with
      | Some x => Ok x
      | None => Raise (IndexError "list index out of range")
      end
  | VStr s =>
      match list_index (chars s) i with
      | Some c => Ok (VStr c)
      | None => Raise (IndexError "string index out of range")
      end
  | VDict _ => Raise (KeyError (NilZero.string_of_int (Z.to_int i)))
  | _ => Raise (TypeError "object is not subscriptable")
  end.

(** [len(v)]. *)
Definition py_len {F : Type} (v : pyval F) : result Z :=
  match v with
  | VList l => Ok (Z.of_nat (List.length l))
  | VStr s => Ok (Z.of_nat (String.length s))
  | VDict d => Ok (Z.of_nat (List.length d))
  | _ => Raise (TypeError "object has no len()")
  end.

(** [isinstance(v, (int, float))]; [bool] is a subclass of [int]. *)
Definition is_number {F : Type} (v : pyval F) : bool :=
  match v with
  | VBool _ | VInt _ | VFloat _ => true
  | _ => false
  end.

(** * The footprint metrics engine: [src/metrics.py] *)

Module Metrics.

Local Open Scope R_scope.

(** Python floats of [metrics.py] are real numbers. *)
Abbreviation value := (pyval R).

(** The reading of a number as a float, [None] on anything else. *)
Definition as_real (v : value) : option R :=
  match v with
  | VBool b => Some (if b then 1 else 0)
  | VInt z => Some (IZR z)
  | VFloat x => Some x
  | _ => None
  end.

(** Truth value of a float: [if x] holds unless [x == 0.0]. *)
Definition nonzero (x : R) : bool :=
  if Req_dec_T x 0 then false else true.

(** Truth value of a decoded value. *)
Definition truthy (v : value) : bool :=
  match v with
  | VNone => false
  | VBool b => b
  | VInt z => negb (z =? 0)%Z
  | VFloat x => nonzero x
  | VStr s => negb (String.eqb s "")
  | VList l => match l with [] => false | _ => true end
  | VDict d => match d with [] => false | _ => true end
  end.

(** Truth value of a variable that holds a float or [None]. *)
Definition truthy_opt (o : option R) : bool :=
  match o with
  | Some x => nonzero x
  | None => false
  end.

(** [float(x) if x else None] of the assembled record. *)
Definition float_or_None (o : option R) : option R :=
  if truthy_opt o then o else None.

(** Truncation towards zero, the rounding of [int] on a float. *)
Definition trunc (x : R) : Z :=
  if Rle_dec 0 x then Int_part x else (- Int_part (- x))%Z.

(** The reading of an [int] (or [bool]) as an integer. *)
Definition as_int (v : value) : option Z :=
  match v with
  | VBool b => Some (Z.b2z b)
  | VInt z => Some z
  | _ => None
  end.

(** [a + b]: concatenation of two strings or two lists, the integer sum of
    two ints, the float sum of two numbers one of which is a float. *)
Definition py_add (a b : value) : result value :=
  match a, b with
  | VStr s, VStr t => Ok (VStr (s ++ t))
  | VList l, VList m => Ok (VList (l ++ m)%list)
  | _, _ =>
      match as_int a, as_int b with
      | Some x, Some y => Ok (VInt (x + y))
      | _, _ =>
          match as_real a, as_real b with
          | Some x, Some y => Ok (VFloat (x + y))
          | _, _ => Raise (TypeError "unsupported operand type(s) for +")
          end
      end
  end.

(** [c * v] for a float [c]. *)
Definition float_mul (c : R) (v : value) : result R :=
  match as_real v with
  | Some x => Ok (c * x)
  | None => Raise (TypeError "can't multiply by non-int of type 'float'")
  end.

(** [v / c] for a non-zero float [c]. *)
Definition div_float (v : value) (c : R) : result R :=
  match as_real v with
  | Some x => Ok (x / c)
  | None => Raise (TypeError "unsupported operand type(s) for /")
  end.

(** [x / n] for a float [x] and an int [n]. *)
Definition float_div_int (x : R) (n : Z) : result R :=
  if (n =? 0)%Z then Raise (ZeroDivisionError "float division by zero")
  else Ok (x / IZR n).

(** [math.radians]. *)
Definition radians (x : R) : R := x * (PI / 180).

(** [math.sqrt]: a negative argument is a domain error. *)
Definition math_sqrt (x : R) : result R :=
  if Rlt_dec x 0 then Raise (ValueError "math domain error") else Ok (sqrt x).

(** [math.asin]: an argument outside [-1, 1] is a domain error. *)
Definition math_asin (x : R) : result R :=
  if Rlt_dec x (-1) then Raise (ValueError "math domain error")
  else if Rlt_dec 1 x then Raise (ValueError "math domain error")
  else Ok (asin x).

(** The nested helper [haversine_km] of [compute_product_metrics]. *)
Definition haversine_km (lat1 lon1 lat2 lon2 : R) : result R :=
  let R_ := 6371 in
  let phi1 := radians lat1 in
  let phi2 := radians lat2 in
  let dphi := radians (lat2 - lat1) in
  let dlambda := radians (lon2 - lon1) in
  let a := sin (dphi / 2) ^ 2 + cos phi1 * cos phi2 * sin (dlambda / 2) ^ 2 in
  r <- math_sqrt a ;;
  h <- math_asin r ;;
  let c := 2 * h in
  Ok (R_ * c).

(** The geodetic subpoint returned by Skyfield. *)
Record Subpoint : Type := {
  latitude_degrees : R;
  longitude_degrees : R;
  elevation_km : R
}.

(** The collaborators of [metrics.py] that are not code of the repository. *)
Class Collaborators : Type := {
  (** a [datetime] object *)
  DateTime : Type;
  (** a Skyfield time *)
  SfTime : Type;
  (** a Skyfield [EarthSatellite] *)
  Satellite : Type;
  (** [int(s)] for a string [s] *)
  int_of_string : string -> result Z;
  (** [datetime.fromtimestamp(x, tz=timezone.utc)] for a number [x] *)
  datetime_fromtimestamp : R -> result DateTime;
  (** [dt.isoformat()] *)
  isoformat : DateTime -> string;
  (** [EarthSatellite(line1, line2, name)] *)
  EarthSatellite : value -> value -> value -> result Satellite;
  (** [ts_sf.utc(dt.year, dt.month, dt.day, dt.hour, dt.minute,
      dt.second + dt.microsecond/1e6)] *)
  ts_utc : DateTime -> SfTime;
  (** [sat.at(t).subpoint()] *)
  subpoint_at : Satellite -> SfTime -> Subpoint
}.

(** The dicts under the keys [mid_subpoint], [first_subpoint] and
    [last_subpoint] of the result. *)
Record MidSubpoint : Type := {
  lat_deg : R;
  lon_deg : R;
  alt_km : R
}.

Record EndSubpoint : Type := {
  end_lat_deg : R;
  end_lon_deg : R
}.

(** The dict returned by [compute_product_metrics], one field per key. *)
Record metrics : Type := {
  image_width_px : Z;
  image_height_px : Z;
  mid_datetime : string;
  mid_subpoint : MidSubpoint;
  first_subpoint : EndSubpoint;
  last_subpoint : EndSubpoint;
  along_track_length_km : R;
  along_track_pixel_size_m : R;
  across_track_swath_km : option R;
  across_track_pixel_size_m : option R;
  total_ground_area_km2 : option R;
  per_pixel_area_km2 : option R;
  fov_deg : option R
}.

Section Engine.

Context {collaborators : Collaborators}.

(** [int(v)]. *)
Definition py_int (v : value) : result Z :=
  match v with
  | VBool b => Ok (Z.b2z b)
  | VInt z => Ok z
  | VFloat x => Ok (trunc x)
  | VStr s => int_of_string s
  | _ => Raise (TypeError "int() argument must be a string, a bytes-like object or a real number")
  end.

(** [datetime.fromtimestamp(v, tz=timezone.utc)] on a decoded value. *)
Definition fromtimestamp (v : value) : result DateTime :=
  match as_real v with
  | Some x => datetime_fromtimestamp x
  | None => Raise (TypeError "a number is required for a timestamp")
  end.

(** The nested helper [to_sf_time]: POSIX seconds to a Skyfield time. *)
Definition to_sf_time (posix_ts : value) : result SfTime :=
  dt <- fromtimestamp posix_ts ;;
  Ok (ts_utc dt).

(** [compute_product_metrics(product)], statement by statement.  [tan] is
    the tangent of the real numbers; it has no value at the odd multiples of
    90 degrees, where the library's [tan] is 0 by convention and [math.tan]
    of the rounded argument is large.  Facts that depend on the value of the
    swath are stated for scan angles strictly between -180 and 180 degrees,
    whose half angles are away from these points. *)
Definition compute_product_metrics (product : list (string * value)) : result metrics :=
  (* --- image dimensions --- *)
  let proj := dict_get product "projection_cfg" (VDict []) in
  width_v <- method_get proj "image_width" VNone ;;
  image_width <- py_int width_v ;;
  let timestamps := dict_get product "timestamps" (VList []) in
  image_height <- py_len timestamps ;;
  if (image_height =? 0)%Z then Raise (ValueError "no timestamps found") else
  (* --- midtime --- *)
  t_first <- py_getitem timestamps 0 ;;
  t_last <- py_getitem timestamps (-1) ;;
  t_sum <- py_add t_first t_last ;;
  mid_ts <- float_mul (1 / 2) t_sum ;;
  mid_dt <- fromtimestamp (VFloat mid_ts) ;;
  (* --- TLE and satellite --- *)
  let tle := dict_get product "tle" (VDict []) in
  line1 <- method_get tle "line1" VNone ;;
  line2 <- method_get tle "line2" VNone ;;
  name <- method_get tle "name" (VStr "sat") ;;
  if negb (truthy line1) || negb (truthy line2)
  then Raise (ValueError "TLE lines missing") else
  sat <- EarthSatellite line1 line2 name ;;
  (* ts_sf = load.timescale(): the time scale that [ts_utc] converts to *)
  (* --- mid subpoint --- *)
  t_mid <- to_sf_time (VFloat mid_ts) ;;
  let sub_mid := subpoint_at sat t_mid in
  (* --- first and last subpoints --- *)
  t_0 <- to_sf_time t_first ;;
  let sub0 := subpoint_at sat t_0 in
  t_N <- to_sf_time t_last ;;
  let subN := subpoint_at sat t_N in
  (* --- haversine along-track length --- *)
  along_track_length <-
    haversine_km (latitude_degrees sub0) (longitude_degrees sub0)
                 (latitude_degrees subN) (longitude_degrees subN) ;;
  pix_along_m <- float_div_int (along_track_length * 1000) image_height ;;
  (* --- across-track swath and pixel size --- *)
  scan_angle_deg <- method_get proj "scan_angle" (VFloat 0) ;;
  half_deg <- div_float scan_angle_deg 2 ;;
  let half_angle_rad := radians half_deg in
  let swath_km :=
    if truthy scan_angle_deg
    then Some (2 * elevation_km sub_mid * tan half_angle_rad) else None in
  pix_across_m <-
    match swath_km with
    | Some s =>
        if nonzero s
        then (p <- float_div_int (s * 1000) image_width ;; Ok (Some p))
        else Ok None
    | None => Ok None
    end ;;
  (* --- total area and per-pixel area --- *)
  let area_km2 :=
    if truthy_opt swath_km
    then option_map (fun s => s * along_track_length) swath_km else None in
  let per_pixel_km2 :=
    if truthy_opt pix_across_m
    then option_map (fun p => pix_along_m * p / 1000000) pix_across_m else None in
  (* --- FOV (degrees) --- *)
  let fov :=
    if truthy scan_angle_deg then as_real scan_angle_deg else None in
  (* --- assemble metrics --- *)
  Ok {| image_width_px := image_width;
        image_height_px := image_height;
        mid_datetime := isoformat mid_dt;
        mid_subpoint :=
          {| lat_deg := latitude_degrees sub_mid;
             lon_deg := longitude_degrees sub_mid;
             alt_km := elevation_km sub_mid |};
        first_subpoint :=
          {| end_lat_deg := latitude_degrees sub0;
             end_lon_deg := longitude_degrees sub0 |};
        last_subpoint :=
          {| end_lat_deg := latitude_degrees subN;
             end_lon_deg := longitude_degrees subN |};
        along_track_length_km := along_track_length;
        along_track_pixel_size_m := pix_along_m;
        across_track_swath_km := float_or_None swath_km;
        across_track_pixel_size_m := float_or_None pix_across_m;
        total_ground_area_km2 := float_or_None area_km2;
        per_pixel_area_km2 := float_or_None per_pixel_km2;
        fov_deg := fov |}.

(** The first two statements alone: the image width read from the
    projection configuration. *)
Definition read_image_width (product : list (string * value)) : result Z :=
  let proj := dict_get product "projection_cfg" (VDict []) in
  width_v <- method_get proj "image_width" VNone ;;
  py_int width_v.

End Engine.

(** The error kinds of the specification, as [compute_product_metrics]
    raises them. *)
Definition EmptyTimestampSeries : exn := ValueError "no timestamps found".
Definition MissingTLE : exn := ValueError "TLE lines missing".

(** What [int(None)] raises. *)
Definition IntConversionError : exn :=
  TypeError "int() argument must be a string, a bytes-like object or a real number".

(** A product without [projection_cfg], or whose [projection_cfg] has no
    [image_width]. *)
Definition lacks_image_width (product : list (string * value)) : Prop :=
  assoc "projection_cfg" product = None \/
  exists items,
    assoc "projection_cfg" product = Some (VDict items) /\
    assoc "image_width" items = None.

(** A product without [tle], or whose [tle] lacks [line1] or [line2] or
    holds an empty (false) value for one of them. *)
Definition tle_lines_missing (product : list (string * value)) : Prop :=
  exists items,
    dict_get product "tle" (VDict []) = VDict items /\
    (truthy (dict_get items "line1" VNone) = false \/
     truthy (dict_get items "line2" VNone) = false).

(** The haversine of an angle. *)
Definition hav (theta : R) : R := sin (theta / 2) ^ 2.

(** The great-circle distance of the specification: the haversine formula
    on a sphere of radius 6371 km, between two points given by latitude and
    longitude in degrees. *)
Definition spec_great_circle_km (lat1 lon1 lat2 lon2 : R) : R :=
  2 * 6371 *
  asin (sqrt (hav (radians lat2 - radians lat1)
              + cos (radians lat1) * cos (radians lat2)
                * hav (radians lon2 - radians lon1))).

(** The epoch of [sample_tle] below (day 179.78495062 of 2000) in POSIX
    seconds. *)
Definition sample_epoch : Z := 962131820.

(** A deterministic stand-in for the collaborators: every timestamp is a
    valid time, every TLE is accepted, and the satellite flies along the
    equator, 500 km above ground, one degree of longitude per second from
    longitude 0 at [sample_epoch]. *)
Definition mock_collaborators : Collaborators :=
  {| DateTime := R;
     SfTime := R;
     Satellite := unit;
     int_of_string := fun _ => Raise (ValueError "invalid literal for int() with base 10");
     datetime_fromtimestamp := fun x => Ok x;
     isoformat := fun _ => "1970-01-01T00:00:00+00:00";
     EarthSatellite := fun _ _ _ => Ok tt;
     ts_utc := fun dt => dt;
     subpoint_at := fun _ t =>
       {| latitude_degrees := 0;
          longitude_degrees := t - IZR sample_epoch;
          elevation_km := 500 |} |}.

Definition sample_tle : value :=
  VDict [("name", VStr "SAT");
         ("line1", VStr "1 00005U 58002B   00179.78495062  .00000023  00000-0  28098-4 0  4753");
         ("line2", VStr "2 00005  34.2682 348.7242 1859667 331.7664  19.3264 10.82419157413667")].

Definition sample_cfg : value :=
  VDict [("image_width", VInt 1000); ("scan_angle", VFloat 2)].

(** Three scan lines, 90 s apart. *)
Definition product_three_lines : list (string * value) :=
  [("tle", sample_tle);
   ("timestamps", VList [VInt 962131820; VInt 962131910; VInt 962132000]);
   ("projection_cfg", sample_cfg)].

(** A single scan line. *)
Definition product_single_line : list (string * value) :=
  [("tle", sample_tle);
   ("timestamps", VList [VInt 962131820]);
   ("projection_cfg", sample_cfg)].

(** Three scan lines, no scan angle in the projection configuration. *)
Definition product_no_scan_angle : list (string * value) :=
  [("tle", sample_tle);
   ("timestamps", VList [VInt 962131820; VInt 962131910; VInt 962132000]);
   ("projection_cfg", VDict [("image_width", VInt 1000)])].

(** No scan line and no TLE. *)
Definition product_empty : list (string * value) :=
  [("timestamps", VList []);
   ("projection_cfg", sample_cfg)].

End Metrics.

(** * The pass geometry engine: [data/.ipynb_checkpoints/test_cbor-checkpoint.py] *)

Module PassData.

Import PrimFloat.

(** Python floats of the pass script are IEEE binary64 values. *)
Abbreviation value := (pyval float).

(** Truth value of a decoded value ([if not tle], [if not timestamps]). *)
Definition truthy (v : value) : bool :=
  match v with
  | VNone => false
  | VBool b => b
  | VInt z => negb (z =? 0)%Z
  | VFloat x => negb (PrimFloat.eqb x 0%float)
  | VStr s => negb (String.eqb s "")
  | VList l => match l with [] => false | _ => true end
  | VDict d => match d with [] => false | _ => true end
  end.

(** [v[k]] for a string key [k]. *)
Definition subscript (v : value) (k : string) : result value :=
  match v with
  | VDict d =>
      match assoc k d with
      | Some x => Ok x
      | None => Raise (KeyError k)
      end
  | VStr _ => Raise (TypeError "string indices must be integers")
  | VList _ => Raise (TypeError "list indices must be integers or slices")
  | _ => Raise (TypeError "object is not subscriptable")
  end.

(** The items visited by [for t in v]. *)
Definition iterate (v : value) : result (list value) :=
  match v with
  | VList l => Ok l
  | VStr s => Ok (map VStr (chars s))
  | VDict d => Ok (map (fun kv => VStr (fst kv)) d)
  | _ => Raise (TypeError "object is not iterable")
  end.

(** [t < 0] on a number ([False < 0] and [True < 0] are false). *)
Definition lt_zero (t : value) : bool :=
  match t with
  | VInt z => (z <? 0)%Z
  | VFloat x => PrimFloat.ltb x 0%float
  | _ => false
  end.

(** The guard of the loop, [not isinstance(t, (int, float)) or t < 0]: the
    comparison is evaluated on numbers only, where it never raises. *)
Definition skipped (t : value) : bool :=
  negb (is_number t) || lt_zero t.

(** The observer of the script, [Topos(latitude_degrees, longitude_degrees,
    elevation_m)]. *)
Record Topos : Type := {
  latitude_degrees : float;
  longitude_degrees : float;
  elevation_m : Z
}.

Definition OBSERVER_LAT : float := (-20.28333333)%float.
Definition OBSERVER_LON : float := 57.55000000%float.
Definition OBSERVER_ELEV : Z := 0.

Definition observer : Topos :=
  {| latitude_degrees := OBSERVER_LAT;
     longitude_degrees := OBSERVER_LON;
     elevation_m := OBSERVER_ELEV |}.

(** The collaborators of the script that are not code of the repository. *)
Class Collaborators : Type := {
  (** a [datetime] object *)
  DateTime : Type;
  (** a Skyfield time *)
  SfTime : Type;
  (** a Skyfield [EarthSatellite] *)
  Satellite : Type;
  (** [datetime.utcfromtimestamp(z)] for an int [z] *)
  utcfromtimestamp_int : Z -> result DateTime;
  (** [datetime.utcfromtimestamp(x)] for a finite float [x] *)
  utcfromtimestamp_finite : float -> result DateTime;
  (** [dt.strftime("%Y-%m-%d %H:%M:%S")] *)
  strftime : DateTime -> string;
  (** [EarthSatellite(line1, line2, name, ts)] *)
  EarthSatellite : value -> value -> value -> result Satellite;
  (** [ts.utc(dt.year, dt.month, dt.day, dt.hour, dt.minute, dt.second)] *)
  ts_utc : DateTime -> SfTime;
  (** [(satellite - observer).at(t_sf).altaz()]: altitude, azimuth, distance *)
  altaz : Satellite -> Topos -> SfTime -> float * float * float;
  (** [wgs84.subpoint(satellite.at(t_sf))]: latitude and longitude *)
  wgs84_subpoint : Satellite -> SfTime -> float * float;
  (** [round(x, ndigits)] *)
  round : float -> Z -> float
}.

(** One row of [records]. *)
Record record : Type := {
  Timestamp : string;
  Azimuth_deg : float;
  Elevation_deg : float;
  Distance_km : float;
  Lat_deg : float;
  Lon_deg : float
}.

Section Engine.

Context {collaborators : Collaborators}.

(** [datetime.utcfromtimestamp(t)]: CPython rejects NaN and the infinities
    before any calendar computation. *)
Definition utcfromtimestamp (t : value) : result DateTime :=
  match t with
  | VBool b => utcfromtimestamp_int (Z.b2z b)
  | VInt z => utcfromtimestamp_int z
  | VFloat x =>
      if is_nan x then Raise (ValueError "Invalid value NaN (not a number)")
      else if is_infinity x
      then Raise (OverflowError "timestamp out of range for platform time_t")
      else utcfromtimestamp_finite x
  | _ => Raise (TypeError "an integer is required")
  end.

(** The body of the loop after the guard: the row appended for [t]. *)
Definition sample (satellite : Satellite) (t : value) : result record :=
  dt <- utcfromtimestamp t ;;
  let t_sf := ts_utc dt in
  let '(alt, az, dist) := altaz satellite observer t_sf in
  let '(lat, lon) := wgs84_subpoint satellite t_sf in
  Ok {| Timestamp := strftime dt;
        Azimuth_deg := round az 3;
        Elevation_deg := round alt 3;
        Distance_km := round dist 3;
        Lat_deg := round lat 4;
        Lon_deg := round lon 4 |}.

(** [for t in timestamps: ...], started with the rows gathered so far. *)
Fixpoint records_loop (satellite : Satellite) (timestamps : list value)
  (records : list record) : result (list record) :=
  match timestamps with
  | [] => Ok records
  | t :: rest =>
      if skipped t then records_loop satellite rest records
      else
        row <- sample satellite t ;;
        records_loop satellite rest (records ++ [row])%list
  end.

(** The script from the TLE extraction to the end of the loop; [data] is
    the decoded CBOR document, the result is [records]. *)
Definition compute_pass (data : list (string * value)) : result (list record) :=
  (* Extract TLE *)
  let tle := dict_get data "tle" VNone in
  if negb (truthy tle) then Raise (SystemExit "No TLE found in CBOR/JSON.") else
  line1 <- subscript tle "line1" ;;
  line2 <- subscript tle "line2" ;;
  name <- subscript tle "name" ;;
  satellite <- EarthSatellite line1 line2 name ;;
  (* Extract timestamps *)
  let timestamps := dict_get data "timestamps" VNone in
  if negb (truthy timestamps) then Raise (SystemExit "No timestamps found.") else
  ts <- iterate timestamps ;;
  records_loop satellite ts [].

End Engine.

(** The error kind [MissingTLE] of the specification, as the script reports
    it: the message is printed and the script exits. *)
Definition MissingTLE : exn := SystemExit "No TLE found in CBOR/JSON.".

(** The validation of the specification: a timestamp is invalid when it is
    not a finite number or is negative. *)
Definition spec_InvalidTimestamp (t : value) : bool :=
  match t with
  | VBool _ => false
  | VInt z => (z <? 0)%Z
  | VFloat x => is_nan x || is_infinity x || PrimFloat.ltb x 0%float
  | _ => true
  end.

(** A deterministic stand-in for the collaborators: a [datetime] is the
    timestamp it was made from, every TLE is accepted, and the satellite
    stays at the origin of every frame. *)
Definition mock_collaborators : Collaborators :=
  {| DateTime := value;
     SfTime := value;
     Satellite := unit;
     utcfromtimestamp_int := fun z => Ok (VInt z);
     utcfromtimestamp_finite := fun x => Ok (VFloat x);
     strftime := fun _ => "1970-01-01 00:00:00";
     EarthSatellite := fun _ _ _ => Ok tt;
     ts_utc := fun dt => dt;
     altaz := fun _ _ _ => (0%float, 0%float, 0%float);
     wgs84_subpoint := fun _ _ => (0%float, 0%float);
     round := fun x _ => x |}.

Definition sample_tle : value :=
  VDict [("name", VStr "SAT");
         ("line1", VStr "1 00005U 58002B   00179.78495062  .00000023  00000-0  28098-4 0  4753");
         ("line2", VStr "2 00005  34.2682 348.7242 1859667 331.7664  19.3264 10.82419157413667")].

(** One invalid sample (-5) and one valid sample. *)
Definition data_two_samples : list (string * value) :=
  [("tle", sample_tle); ("timestamps", VList [VInt (-5); VInt 962131820])].

(** A NaN among the samples. *)
Definition data_nan_sample : list (string * value) :=
  [("tle", sample_tle); ("timestamps", VList [VFloat nan])].

(** Every sample invalid: a negative number, a string, a null. *)
Definition data_all_invalid : list (string * value) :=
  [("tle", sample_tle); ("timestamps", VList [VInt (-5); VStr "962131820"; VNone])].

(** A TLE record whose [line1] is the empty string. *)
Definition data_empty_line1 : list (string * value) :=
  [("tle", VDict [("name", VStr "SAT");
                  ("line1", VStr "");
                  ("line2", VStr "2 00005  34.2682 348.7242 1859667 331.7664  19.3264 10.82419157413667")]);
   ("timestamps", VList [VInt 962131820])].

(** A TLE record without [line1]. *)
Definition data_no_line1 : list (string * value) :=
  [("tle", VDict [("name", VStr "SAT");
                  ("line2", VStr "2 00005  34.2682 348.7242 1859667 331.7664  19.3264 10.82419157413667")]);
   ("timestamps", VList [VInt 962131820])].

End PassData.

(** * Sample products for the footprint metrics engine *)

Module MetricsSamples.

Import Metrics.
Local Open Scope R_scope.

(** The items of [sample_tle]. *)
Definition sample_tle_items : list (string * value) :=
  [("name", VStr "SAT");
   ("line1", VStr "1 00005U 58002B   00179.78495062  .00000023  00000-0  28098-4 0  4753");
   ("line2", VStr "2 00005  34.2682 348.7242 1859667 331.7664  19.3264 10.82419157413667")].

(** Three scan lines; the interior timestamp is a string. *)
Definition product_bad_interior : list (string * value) :=
  [("timestamps", VList [VInt 962131820; VStr "not a number"; VInt 962132000]);
   ("tle", sample_tle);
   ("projection_cfg", sample_cfg)].

(** Three scan lines; the interior timestamp is a number. *)
Definition product_good_interior : list (string * value) :=
  [("timestamps", VList [VInt 962131820; VInt 962131910; VInt 962132000]);
   ("tle", sample_tle);
   ("projection_cfg", sample_cfg)].



(** The first timestamp is a string. *)
Definition product_bad_first : list (string * value) :=
  [("tle", sample_tle);
   ("timestamps", VList [VStr "962131820"; VInt 962131910; VInt 962132000]);
   ("projection_cfg", sample_cfg)].

(** The scan angle is a null. *)
Definition product_null_scan : list (string * value) :=
  [("tle", sample_tle);
   ("timestamps", VList [VInt 962131820; VInt 962131910; VInt 962132000]);
   ("projection_cfg", VDict [("image_width", VInt 1000); ("scan_angle", VNone)])].

(** The TLE is a null. *)
Definition product_null_tle : list (string * value) :=
  [("tle", VNone);
   ("timestamps", VList [VInt 962131820; VInt 962131910; VInt 962132000]);
   ("projection_cfg", sample_cfg)].

End MetricsSamples.

(** * Sample documents for the pass geometry engine *)

Module PassDataSamples.

Import PassData.

(** The items of [sample_tle]. *)
Definition sample_tle_items : list (string * value) :=
  [("name", VStr "SAT");
   ("line1", VStr "1 00005U 58002B   00179.78495062  .00000023  00000-0  28098-4 0  4753");
   ("line2", VStr "2 00005  34.2682 348.7242 1859667 331.7664  19.3264 10.82419157413667")].

(** A valid sample followed by an infinite one. *)
Definition data_infinite_sample : list (string * value) :=
  [("tle", sample_tle);
   ("timestamps", VList [VInt 962131820; VFloat PrimFloat.infinity])].

(** The timestamps given as a string. *)
Definition data_string_timestamps : list (string * value) :=
  [("tle", sample_tle); ("timestamps", VStr "962131820")].

(** No timestamps at all. *)
Definition data_no_timestamps : list (string * value) :=
  [("tle", sample_tle)].

(** A TLE record with both lines and no name. *)
Definition data_no_name : list (string * value) :=
  [("tle", VDict [("line1", VStr "1 00005U 58002B   00179.78495062  .00000023  00000-0  28098-4 0  4753");
                  ("line2", VStr "2 00005  34.2682 348.7242 1859667 331.7664  19.3264 10.82419157413667")]);
   ("timestamps", VList [VInt 962131820])].

End PassDataSamples.

(** * File discovery and output names: [data/.ipynb_checkpoints/test_cbor-checkpoint.py] *)

Module CborFiles.

(** [s.endswith(suffix)]. *)
Definition endswith (s suffix : string) : bool :=
  let n := String.length s in
  let k := String.length suffix in
  (k <=? n)%nat && String.eqb (substring (n - k) k s) suffix.

(** [for file in os.listdir('.'): if file.endswith('.cbor'): cbor_file = file; break],
    started with [cbor_file = None]; [listing] is what [os.listdir('.')]
    returned. *)
Fixpoint first_cbor (listing : list string) : option string :=
  match listing with
  | [] => None
  | file :: rest => if endswith file ".cbor" then Some file else first_cbor rest
  end.

(** The three files the script writes. *)
Record output_files : Type := {
  json_file : string;
  excel_file : string;
  map_file : string
}.

Section Names.

(** [os.path.splitext]. *)
Variable splitext : string -> string * string.

(** The file discovery and the names of the output files; the script exits
    when [cbor_file] is [None] or empty. *)
Definition discover (listing : list string) : result (string * output_files) :=
  match first_cbor listing with
  | Some cbor_file =>
      if String.eqb cbor_file ""
      then Raise (SystemExit "No .cbor file found in this directory.")
      else Ok (cbor_file,
               {| json_file := fst (splitext cbor_file) ++ ".json";
                  excel_file := fst (splitext cbor_file) ++ "_pass_data.xlsx";
                  map_file := fst (splitext cbor_file) ++ "_map.png" |})
  | None => Raise (SystemExit "No .cbor file found in this directory.")
  end.

End Names.

(** The last character of a name; the four extensions of the script end in
    four different characters. *)
Fixpoint last_char (s : string) : option ascii :=
  match s with
  | EmptyString => None
  | String c rest =>
      match rest with
      | EmptyString => Some c
      | String _ _ => last_char rest
      end
  end.

(** A stand-in for [os.path.splitext] on names with a four-character
    extension. *)
Definition splitext_four (s : string) : string * string :=
  (substring 0 (String.length s - 5) s, substring (String.length s - 5) 5 s).

(** A directory with the input in second place. *)
Definition sample_listing : list string :=
  ["notes.txt"; "pass_0628.cbor"; "older.cbor"; "pass_0628.json"].

End CborFiles.

(** * Facts about the shared value model *)

Lemma py_getitem_first {F : Type} (ts : list (pyval F)) (t : pyval F) :
  py_getitem (VList ts) 0 = Ok t <-> hd_error ts = Some t.
Proof.
  unfold py_getitem, list_index. cbn. destruct ts as [| a l]; cbn.
  - split; discriminate.
  - split; intros H; injection H as <-; reflexivity.
Qed.

Lemma py_getitem_last {F : Type} (ts : list (pyval F)) (t : pyval F) :
  py_getitem (VList ts) (-1) = Ok t <-> ts <> [] /\ last ts t = t.
Proof.
  unfold py_getitem, list_index. cbv zeta.
  replace (0 <=? -1)%Z with false by reflexivity. cbv iota.
  destruct ts as [| a l].
  - cbn. split; [discriminate | intros [H _]; contradiction].
  - assert (Hn : (0 <=? Z.of_nat (List.length (a :: l)) + -1)%Z = true).
    { apply Z.leb_le. cbn [List.length]. lia. }
    rewrite Hn.
    replace (Z.to_nat (Z.of_nat (List.length (a :: l)) + -1)) with (List.length l)
      by (cbn [List.length]; lia).
    pose proof (@app_removelast_last _ (a :: l) t ltac:(discriminate)) as Hsplit.
    assert (Hlen : List.length (removelast (a :: l)) = List.length l).
    { apply (f_equal (@List.length _)) in Hsplit. rewrite length_app in Hsplit.
      cbn [List.length] in Hsplit. lia. }
    rewrite Hsplit at 1. rewrite nth_error_app2 by lia.
    rewrite Hlen, Nat.sub_diag. cbn [nth_error].
    split.
    + intros H. injection H as H. split; [discriminate | exact H].
    + intros [_ H]. now rewrite H.
Qed.

Lemma last_cons_default {A : Type} (l : list A) (a d : A) :
  last (a :: l) d = last l a.
Proof.
  revert a d. induction l as [| b l IH]; intros a d; [reflexivity |].
  change (last (a :: b :: l) d) with (last (b :: l) d).
  now rewrite (IH b d), (IH b a).
Qed.

(** * Facts about the footprint metrics engine *)

Module MetricsFacts.

Import Metrics.
Local Open Scope R_scope.

Lemma nonzero_true (x : R) : x <> 0 -> nonzero x = true.
Proof. intros Hx. unfold nonzero. destruct (Req_dec_T x 0); [contradiction | reflexivity]. Qed.

Lemma nonzero_zero : nonzero 0 = false.
Proof. unfold nonzero. destruct (Req_dec_T 0 0); [reflexivity | congruence]. Qed.

Lemma nonzero_true_iff (x : R) : nonzero x = true <-> x <> 0.
Proof.
  unfold nonzero. destruct (Req_dec_T x 0) as [E | E]; split; intros H;
    try discriminate; try reflexivity; try assumption. contradiction.
Qed.

Lemma nonzero_false_iff (x : R) : nonzero x = false <-> x = 0.
Proof.
  unfold nonzero. destruct (Req_dec_T x 0) as [E | E]; split; intros H;
    try discriminate; try reflexivity; try assumption. contradiction.
Qed.

Lemma truthy_as_real (v : value) (x : R) :
  as_real v = Some x -> truthy v = nonzero x.
Proof.
  destruct v; simpl; intros H; try discriminate; injection H as <-.
  - destruct b.
    + symmetry. apply nonzero_true. lra.
    + symmetry. apply nonzero_zero.
  - destruct (Z.eqb_spec z 0) as [-> | Hz]; simpl.
    + symmetry. apply nonzero_zero.
    + symmetry. apply nonzero_true. intros H0. apply Hz. now apply eq_IZR.
  - reflexivity.
Qed.

Lemma float_or_None_Some (o : option R) (x : R) :
  float_or_None o = Some x <-> o = Some x /\ x <> 0.
Proof.
  unfold float_or_None. destruct o as [y |]; simpl.
  - destruct (nonzero y) eqn:E.
    + apply nonzero_true_iff in E. split.
      * intros H. injection H as <-. auto.
      * intros [H _]. exact H.
    + apply nonzero_false_iff in E. split; [discriminate |].
      intros [H Hx]. injection H as <-. contradiction.
  - split; [discriminate | intros [H _]; discriminate].
Qed.

Lemma float_or_None_None (o : option R) :
  float_or_None o = None <-> o = None \/ o = Some 0.
Proof.
  unfold float_or_None. destruct o as [y |]; simpl.
  - destruct (nonzero y) eqn:E.
    + apply nonzero_true_iff in E. split; [discriminate |].
      intros [H | H]; [discriminate | injection H as ->; contradiction].
    + apply nonzero_false_iff in E. subst. split; auto.
  - split; auto.
Qed.

(** ** Haversine *)

Lemma radians_minus (x y : R) : radians (x - y) = radians x - radians y.
Proof. unfold radians. ring. Qed.

Lemma hav_opp (theta : R) : hav (- theta) = hav theta.
Proof.
  unfold hav. replace (- theta / 2) with (- (theta / 2)) by field.
  rewrite sin_neg. ring.
Qed.

Lemma hav_0 : hav 0 = 0.
Proof. unfold hav. replace (0 / 2) with 0 by field. rewrite sin_0. ring. Qed.

Lemma haversine_km_unfold (lat1 lon1 lat2 lon2 : R) :
  haversine_km lat1 lon1 lat2 lon2 =
  (r <- math_sqrt (hav (radians lat2 - radians lat1)
                   + cos (radians lat1) * cos (radians lat2)
                     * hav (radians lon2 - radians lon1)) ;;
   h <- math_asin r ;;
   Ok (6371 * (2 * h))).
Proof.
  unfold haversine_km. cbv zeta. rewrite !radians_minus. reflexivity.
Qed.

Lemma haversine_km_commutes (lat1 lon1 lat2 lon2 : R) :
  haversine_km lat1 lon1 lat2 lon2 = haversine_km lat2 lon2 lat1 lon1.
Proof.
  rewrite !haversine_km_unfold.
  replace (radians lat2 - radians lat1) with (- (radians lat1 - radians lat2)) by ring.
  replace (radians lon2 - radians lon1) with (- (radians lon1 - radians lon2)) by ring.
  rewrite !hav_opp.
  rewrite (Rmult_comm (cos (radians lat1)) (cos (radians lat2))).
  reflexivity.
Qed.

Lemma math_sqrt_0 : math_sqrt 0 = Ok 0.
Proof.
  unfold math_sqrt. destruct (Rlt_dec 0 0) as [H | _]; [lra |]. now rewrite sqrt_0.
Qed.

Lemma math_asin_0 : math_asin 0 = Ok 0.
Proof.
  unfold math_asin. destruct (Rlt_dec 0 (-1)) as [H | _]; [lra |].
  destruct (Rlt_dec 1 0) as [H | _]; [lra |]. now rewrite asin_0.
Qed.

Lemma haversine_km_same_point (lat lon : R) : haversine_km lat lon lat lon = Ok 0.
Proof.
  rewrite haversine_km_unfold.
  replace (radians lat - radians lat) with 0 by ring.
  replace (radians lon - radians lon) with 0 by ring.
  rewrite hav_0.
  replace (0 + cos (radians lat) * cos (radians lat) * 0) with 0 by ring.
  rewrite math_sqrt_0. cbn [bind]. rewrite math_asin_0. cbn [bind].
  f_equal. ring.
Qed.

Lemma haversine_km_great_circle (lat1 lon1 lat2 lon2 d : R) :
  haversine_km lat1 lon1 lat2 lon2 = Ok d ->
  d = spec_great_circle_km lat1 lon1 lat2 lon2.
Proof.
  rewrite haversine_km_unfold. unfold math_sqrt, math_asin, spec_great_circle_km.
  destruct (Rlt_dec _ 0); cbn [bind]; [discriminate |].
  destruct (Rlt_dec _ (-1)); cbn [bind]; [discriminate |].
  destruct (Rlt_dec 1 _); cbn [bind]; [discriminate |].
  intros H. injection H as <-. ring.
Qed.


Lemma radians_quarter_turn (lat : R) :
  -90 <= lat <= 90 -> - (PI / 2) <= radians lat <= PI / 2.
Proof.
  intros [Hlo Hhi]. unfold radians. pose proof PI_RGT_0 as Hpi. split; nra.
Qed.

Lemma hav_bounds (theta : R) : 0 <= hav theta <= 1.
Proof.
  unfold hav. pose proof (SIN_bound (theta / 2)) as [Hlo Hhi]. split; nra.
Qed.

(** [cos p * cos q = cos^2 ((q - p)/2) - sin^2 ((p + q)/2)]. *)
Lemma cos_product_half_angles (p q : R) :
  cos p * cos q + hav (q - p) = 1 - sin ((p + q) / 2) ^ 2.
Proof.
  unfold hav.
  set (u := (q - p) / 2). set (v := (p + q) / 2).
  replace p with (v - u) by (unfold u, v; field).
  replace q with (v + u) at 1 by (unfold u, v; field).
  rewrite cos_minus, cos_plus.
  pose proof (sin2_cos2 u) as Hu. pose proof (sin2_cos2 v) as Hv.
  unfold Rsqr in Hu, Hv. nra.
Qed.

Lemma haversine_argument_bounds (lat1 lon1 lat2 lon2 : R) :
  -90 <= lat1 <= 90 -> -90 <= lat2 <= 90 ->
  0 <= hav (radians lat2 - radians lat1)
       + cos (radians lat1) * cos (radians lat2) * hav (radians lon2 - radians lon1)
    <= 1.
Proof.
  intros H1 H2.
  apply radians_quarter_turn in H1, H2.
  pose proof (cos_ge_0 _ (proj1 H1) (proj2 H1)) as Hc1.
  pose proof (cos_ge_0 _ (proj1 H2) (proj2 H2)) as Hc2.
  pose proof (hav_bounds (radians lat2 - radians lat1)) as [Hp _].
  pose proof (hav_bounds (radians lon2 - radians lon1)) as [Hl0 Hl1].
  pose proof (cos_product_half_angles (radians lat1) (radians lat2)) as Hcos.
  pose proof (pow2_ge_0 (sin ((radians lat1 + radians lat2) / 2))) as Hsq.
  assert (Hcc : 0 <= cos (radians lat1) * cos (radians lat2)) by nra.
  split; nra.
Qed.

Lemma asin_nonneg (x : R) : 0 <= x <= 1 -> 0 <= asin x.
Proof.
  intros [H0 H1].
  destruct (Rle_dec 0 (asin x)) as [H | H]; [exact H | exfalso].
  apply Rnot_le_lt in H.
  pose proof (asin_bound x) as [Hlo _].
  pose proof PI_RGT_0 as Hpi.
  assert (Hs : sin (asin x) < 0) by (apply sin_lt_0_var; lra).
  rewrite sin_asin in Hs by lra. lra.
Qed.

(** On latitudes between -90 and 90 degrees [haversine_km] raises no
    domain error and returns the great-circle distance, at most half the
    circumference of the sphere. *)
Lemma haversine_km_defined (lat1 lon1 lat2 lon2 : R) :
  -90 <= lat1 <= 90 -> -90 <= lat2 <= 90 ->
  haversine_km lat1 lon1 lat2 lon2 = Ok (spec_great_circle_km lat1 lon1 lat2 lon2)
  /\ 0 <= spec_great_circle_km lat1 lon1 lat2 lon2 <= 6371 * PI.
Proof.
  intros H1 H2.
  pose proof (haversine_argument_bounds lat1 lon1 lat2 lon2 H1 H2) as [Ha0 Ha1].
  rewrite haversine_km_unfold. unfold spec_great_circle_km.
  set (a := hav (radians lat2 - radians lat1)
            + cos (radians lat1) * cos (radians lat2) * hav (radians lon2 - radians lon1)) in *.
  assert (Hs0 : 0 <= sqrt a) by apply sqrt_pos.
  assert (Hs1 : sqrt a <= 1).
  { rewrite <- sqrt_1. now apply sqrt_le_1_alt. }
  unfold math_sqrt. destruct (Rlt_dec a 0) as [H | _]; [lra |]. cbn [bind].
  unfold math_asin. destruct (Rlt_dec (sqrt a) (-1)) as [H | _]; [lra |].
  destruct (Rlt_dec 1 (sqrt a)) as [H | _]; [lra |]. cbn [bind].
  split.
  - f_equal. ring.
  - pose proof (asin_nonneg (sqrt a) (conj Hs0 Hs1)) as Hn.
    pose proof (asin_bound (sqrt a)) as [_ Hhi].
    split; nra.
Qed.

(** C7.  [haversine_km] is symmetric in its two points, and the distance
    from a point to itself is 0. *)
Theorem haversine_km_symmetric_and_zero_on_same_point (lat1 lon1 lat2 lon2 : R) :
  haversine_km lat1 lon1 lat2 lon2 = haversine_km lat2 lon2 lat1 lon1 /\
  haversine_km lat1 lon1 lat1 lon1 = Ok 0.
Proof.
  split.
  - apply haversine_km_commutes.
  - apply haversine_km_same_point.
Qed.

Lemma py_add_float_mul (a b s : value) (c y : R) :
  py_add a b = Ok s -> float_mul c s = Ok y ->
  exists x0 xN, as_real a = Some x0 /\ as_real b = Some xN /\ y = c * (x0 + xN).
Proof.
  unfold float_mul.
  destruct a as [| p | z | x | sa | la | da], b as [| q | w | x' | sb | lb | db];
    cbn; intros Hs; try discriminate Hs; injection Hs as <-; cbn;
    intros Hy; try discriminate Hy; injection Hy as <-;
    eexists; eexists; (split; [reflexivity | split; [reflexivity |]]);
    try rewrite plus_IZR; try destruct p; try destruct q; cbn; try reflexivity; try ring.
Qed.

Lemma float_div_int_Ok (x : R) (n : Z) (y : R) :
  float_div_int x n = Ok y <-> n <> 0%Z /\ y = x / IZR n.
Proof.
  unfold float_div_int. destruct (Z.eqb_spec n 0) as [-> | Hn].
  - split; [discriminate | intros [H _]; contradiction].
  - split.
    + intros H. injection H as <-. auto.
    + intros [_ ->]. reflexivity.
Qed.

Section WithCollaborators.

Context {collaborators : Collaborators}.

Ltac run_inv H :=
  unfold compute_product_metrics in H; cbv zeta in H;
  repeat match type of H with
  | bind ?c _ = Ok _ =>
      let E := fresh "E" in destruct c eqn:E; cbn [bind] in H; [ | discriminate H]
  | (if ?b then _ else _) = Ok _ =>
      let E := fresh "E" in destruct b eqn:E; try discriminate H
  end.

Lemma getitem_list_inv (v : value) (h : Z) (t0 tN : value) :
  py_len v = Ok h -> py_getitem v 0 = Ok t0 -> py_getitem v (-1) = Ok tN ->
  forall ts, v = VList ts ->
  h = Z.of_nat (List.length ts) /\ hd_error ts = Some t0 /\ ts <> [] /\ last ts tN = tN.
Proof.
  intros Hlen H0 HN ts ->. cbn in Hlen. injection Hlen as <-.
  apply py_getitem_first in H0. apply py_getitem_last in HN. tauto.
Qed.

Lemma to_sf_time_inv (v : value) (t : SfTime) :
  to_sf_time v = Ok t ->
  exists x dt, as_real v = Some x /\ datetime_fromtimestamp x = Ok dt /\ t = ts_utc dt.
Proof.
  unfold to_sf_time, fromtimestamp. destruct (as_real v) as [x |]; cbn; [| discriminate].
  destruct (datetime_fromtimestamp x) as [dt |] eqn:E; cbn; [| discriminate].
  intros H. injection H as <-. eauto.
Qed.

(** The across-track block: the pixel size is computed exactly when the
    swath is a non-zero float, and then the image width is not zero. *)
Lemma pix_across_inv (swath_km : option R) (w : Z) (pix : option R) :
  match swath_km with
  | Some s =>
      if nonzero s then (p <- float_div_int (s * 1000) w ;; Ok (Some p)) else Ok None
  | None => Ok None
  end = Ok pix ->
  (truthy_opt swath_km = false /\ pix = None) \/
  (exists s, swath_km = Some s /\ s <> 0 /\ w <> 0%Z /\ pix = Some (s * 1000 / IZR w)).
Proof.
  destruct swath_km as [s |]; cbn.
  - destruct (nonzero s) eqn:Es.
    + destruct (float_div_int (s * 1000) w) as [p |] eqn:Ep; cbn; [| discriminate].
      apply float_div_int_Ok in Ep as [Hw ->]. apply nonzero_true_iff in Es.
      intros H. injection H as <-. right. exists s. auto.
    + intros H. injection H as <-. left. auto.
  - intros H. injection H as <-. left. auto.
Qed.

Lemma method_get_Ok (v : value) (k : string) (d r : value) :
  method_get v k d = Ok r <-> exists items, v = VDict items /\ r = dict_get items k d.
Proof.
  split.
  - destruct v; cbn; intros H; try discriminate H. injection H as <-. eauto.
  - intros (items & -> & ->). reflexivity.
Qed.

Lemma div_float_Ok (v : value) (c y : R) :
  div_float v c = Ok y <-> exists x, as_real v = Some x /\ y = x / c.
Proof.
  unfold div_float. destruct (as_real v) as [x |]; split.
  - intros H. injection H as <-. eauto.
  - intros (x' & Hx & ->). injection Hx as ->. reflexivity.
  - discriminate.
  - intros (x' & Hx & _). discriminate.
Qed.

Lemma float_or_None_zero (x : R) : x = 0 -> float_or_None (Some x) = None.
Proof. intros ->. unfold float_or_None. cbn. now rewrite nonzero_zero. Qed.

Lemma float_or_None_nonzero (x : R) : x <> 0 -> float_or_None (Some x) = Some x.
Proof. intros H. unfold float_or_None. cbn. now rewrite (nonzero_true x H). Qed.

(** What a returned record says about the run that produced it. *)
Lemma compute_product_metrics_inv (product : list (string * value)) (m : metrics) :
  compute_product_metrics product = Ok m ->
  exists cfg w h t_first t_last x0 xN mid_dt tle sat dt0 dtN along s,
    dict_get product "projection_cfg" (VDict []) = VDict cfg /\
    py_int (dict_get cfg "image_width" VNone) = Ok w /\
    py_len (dict_get product "timestamps" (VList [])) = Ok h /\
    h <> 0%Z /\
    py_getitem (dict_get product "timestamps" (VList [])) 0 = Ok t_first /\
    py_getitem (dict_get product "timestamps" (VList [])) (-1) = Ok t_last /\
    as_real t_first = Some x0 /\
    as_real t_last = Some xN /\
    datetime_fromtimestamp (1 / 2 * (x0 + xN)) = Ok mid_dt /\
    dict_get product "tle" (VDict []) = VDict tle /\
    truthy (dict_get tle "line1" VNone) = true /\
    truthy (dict_get tle "line2" VNone) = true /\
    EarthSatellite (dict_get tle "line1" VNone) (dict_get tle "line2" VNone)
                   (dict_get tle "name" (VStr "sat")) = Ok sat /\
    datetime_fromtimestamp x0 = Ok dt0 /\
    datetime_fromtimestamp xN = Ok dtN /\
    haversine_km (latitude_degrees (subpoint_at sat (ts_utc dt0)))
                 (longitude_degrees (subpoint_at sat (ts_utc dt0)))
                 (latitude_degrees (subpoint_at sat (ts_utc dtN)))
                 (longitude_degrees (subpoint_at sat (ts_utc dtN))) = Ok along /\
    as_real (dict_get cfg "scan_angle" (VFloat 0)) = Some s /\
    (s <> 0 ->
     2 * elevation_km (subpoint_at sat (ts_utc mid_dt)) * tan (radians (s / 2)) <> 0 ->
     w <> 0%Z) /\
    m = {| image_width_px := w;
           image_height_px := h;
           mid_datetime := isoformat mid_dt;
           mid_subpoint :=
             {| lat_deg := latitude_degrees (subpoint_at sat (ts_utc mid_dt));
                lon_deg := longitude_degrees (subpoint_at sat (ts_utc mid_dt));
                alt_km := elevation_km (subpoint_at sat (ts_utc mid_dt)) |};
           first_subpoint :=
             {| end_lat_deg := latitude_degrees (subpoint_at sat (ts_utc dt0));
                end_lon_deg := longitude_degrees (subpoint_at sat (ts_utc dt0)) |};
           last_subpoint :=
             {| end_lat_deg := latitude_degrees (subpoint_at sat (ts_utc dtN));
                end_lon_deg := longitude_degrees (subpoint_at sat (ts_utc dtN)) |};
           along_track_length_km := along;
           along_track_pixel_size_m := along * 1000 / IZR h;
           across_track_swath_km :=
             if nonzero s
             then float_or_None
                    (Some (2 * elevation_km (subpoint_at sat (ts_utc mid_dt))
                           * tan (radians (s / 2))))
             else None;
           across_track_pixel_size_m :=
             if nonzero s
             then float_or_None
                    (Some (2 * elevation_km (subpoint_at sat (ts_utc mid_dt))
                           * tan (radians (s / 2)) * 1000 / IZR w))
             else None;
           total_ground_area_km2 :=
             if nonzero s
             then float_or_None
                    (Some (2 * elevation_km (subpoint_at sat (ts_utc mid_dt))
                           * tan (radians (s / 2)) * along))
             else None;
           per_pixel_area_km2 :=
             if nonzero s
             then float_or_None
                    (Some (along * 1000 / IZR h
                           * (2 * elevation_km (subpoint_at sat (ts_utc mid_dt))
                              * tan (radians (s / 2)) * 1000 / IZR w) / 1000000))
             else None;
           fov_deg := if nonzero s then Some s else None |}.
Proof.
  intros H. run_inv H. injection H as <-.
  repeat match goal with
  | E : method_get _ _ _ = Ok _ |- _ => apply method_get_Ok in E as (? & ? & ?)
  end.
  repeat match goal with
  | E1 : ?v = VDict ?a, E2 : ?v = VDict ?b |- _ =>
      rewrite E1 in E2; injection E2 as E2; subst b
  end.
  subst.
  match goal with E : (_ =? 0)%Z = false |- _ => apply Z.eqb_neq in E; rename E into Hh end.
  match goal with
  | E1 : py_add _ _ = Ok _, E2 : float_mul _ _ = Ok _ |- _ =>
      destruct (py_add_float_mul _ _ _ _ _ E1 E2) as (x0 & xN & Hx0 & HxN & ->)
  end.
  match goal with
  | E : fromtimestamp (VFloat _) = Ok _ |- _ =>
      unfold fromtimestamp in E; cbn [as_real] in E; rename E into Hmid
  end.
  match goal with
  | E : to_sf_time (VFloat _) = Ok _ |- _ =>
      apply to_sf_time_inv in E as (xm & dtm & Hxm & Hdtm & ->);
      cbn [as_real] in Hxm; injection Hxm as <-;
      rewrite Hmid in Hdtm; injection Hdtm as <-
  end.
  repeat match goal with
  | E : to_sf_time _ = Ok _ |- _ => apply to_sf_time_inv in E as (? & ? & ? & ? & ->)
  end.
  repeat match goal with
  | E1 : as_real ?v = Some ?a, E2 : as_real ?v = Some ?b |- _ =>
      rewrite E1 in E2; injection E2 as E2; subst b
  end.
  match goal with E : _ || _ = false |- _ =>
    apply orb_false_iff in E as [Hl1 Hl2];
    apply negb_false_iff in Hl1; apply negb_false_iff in Hl2 end.
  match goal with E : float_div_int _ _ = Ok _ |- _ =>
    apply float_div_int_Ok in E as [_ ->] end.
  match goal with E : div_float _ _ = Ok _ |- _ =>
    apply div_float_Ok in E as (s & Hs & ->) end.
  rewrite (truthy_as_real _ _ Hs) in *. rewrite Hs.
  match goal with E : match _ with Some _ => _ | None => _ end = Ok _ |- _ =>
    apply pix_across_inv in E as [[Hsw ->] | (sw & Hsw & Hsw0 & Hw & ->)] end.
  - (* no across-track pixel size: the scan angle or the swath is zero *)
    do 14 eexists. repeat (split; [eassumption || reflexivity |]).
    destruct (nonzero s) eqn:Es; cbn in Hsw |- *.
    + apply nonzero_false_iff in Hsw. split; [intros _ Hne; contradiction |].
      rewrite Hsw. rewrite !float_or_None_zero by (unfold Rdiv; ring).
      unfold float_or_None. cbn. rewrite nonzero_zero. reflexivity.
    + split; [intros Hne; apply nonzero_false_iff in Es; contradiction |].
      reflexivity.
  - (* the across-track pixel size is computed *)
    do 14 eexists. repeat (split; [eassumption || reflexivity |]).
    destruct (nonzero s) eqn:Es; cbn in Hsw |- *; [| discriminate Hsw].
    injection Hsw as <-. split; [intros _ _; exact Hw |].
    match type of Hsw0 with ?x <> 0 => set (sw := x) in * end.
    match type of Hw with ?z <> 0%Z => set (w := z) in * end.
    assert (Hp : sw * 1000 / IZR w <> 0).
    { apply not_0_IZR in Hw. intros Hz. apply Hsw0.
      replace sw with (sw * 1000 / IZR w * IZR w / 1000) by (field; assumption).
      rewrite Hz. field. }
    rewrite (nonzero_true _ Hsw0), (nonzero_true _ Hp). reflexivity.
Qed.

(** ** The claims about [compute_product_metrics] *)

(** C3, as amended.  On an empty timestamp series [compute_product_metrics]
    returns no record: it fails with [EmptyTimestampSeries] when the image
    width has been read from the projection configuration, and with the
    error of that reading otherwise, which comes first.  A record returned
    for the series [ts] has [image_height_px] equal to the number of
    entries of [ts], which is then not empty. *)
Theorem empty_series_fails_and_height_counts_every_sample
  (product : list (string * value)) (ts : list value) :
  dict_get product "timestamps" (VList []) = VList ts ->
  (ts = [] ->
   (exists e, compute_product_metrics product = Raise e) /\
   (forall w, read_image_width product = Ok w ->
    compute_product_metrics product = Raise EmptyTimestampSeries) /\
   (forall e, read_image_width product = Raise e ->
    compute_product_metrics product = Raise e)) /\
  (forall m, compute_product_metrics product = Ok m ->
   ts <> [] /\ image_height_px m = Z.of_nat (List.length ts)).
Proof.
  intros Hts. split.
  - intros ->. unfold read_image_width, compute_product_metrics. cbv zeta.
    destruct (method_get _ "image_width" VNone) as [width_v | e]; cbn [bind].
    + destruct (py_int width_v) as [w | e]; cbn [bind].
      * rewrite Hts. cbn.
        split; [eexists; reflexivity |]. split; [reflexivity | discriminate].
      * split; [eexists; reflexivity |]. split; [discriminate |].
        intros e' He'. injection He' as <-. reflexivity.
    + split; [eexists; reflexivity |]. split; [discriminate |].
      intros e' He'. injection He' as <-. reflexivity.
  - intros m Hm.
    destruct (compute_product_metrics_inv _ _ Hm)
      as (cfg & w & h & t0 & tN & x0 & xN & mid_dt & tle & sat & dt0 & dtN & along & s
          & _ & _ & Hlen & Hh & _ & _ & _ & _ & _ & _ & _ & _ & _ & _ & _ & _ & _ & _ & ->).
    rewrite Hts in Hlen. cbn in Hlen. injection Hlen as <-. cbn. split; [| reflexivity].
    intros ->. apply Hh. reflexivity.
Qed.

(** C4.  The mid time of a returned record is the arithmetic mean of the
    first and the last timestamp, and [mid_datetime] is the ISO-8601 string
    ([isoformat]) of the UTC [datetime] made from that mean. *)
Theorem mid_datetime_is_mean_of_first_and_last
  (product : list (string * value)) (ts : list value) (m : metrics) :
  dict_get product "timestamps" (VList []) = VList ts ->
  compute_product_metrics product = Ok m ->
  exists t_first t_last x0 xN mid_dt,
    hd_error ts = Some t_first /\
    last ts t_last = t_last /\
    as_real t_first = Some x0 /\
    as_real t_last = Some xN /\
    datetime_fromtimestamp ((x0 + xN) / 2) = Ok mid_dt /\
    mid_datetime m = isoformat mid_dt.
Proof.
  intros Hts Hm.
  destruct (compute_product_metrics_inv _ _ Hm)
    as (cfg & w & h & t0 & tN & x0 & xN & mid_dt & tle & sat & dt0 & dtN & along & s
        & _ & _ & Hlen & _ & H0 & HN & Hx0 & HxN & Hmid & _ & _ & _ & _ & _ & _ & _ & _ & _ & ->).
  rewrite Hts in *.
  destruct (getitem_list_inv _ _ _ _ Hlen H0 HN ts eq_refl) as (_ & Hhd & _ & Hlast).
  exists t0, tN, x0, xN, mid_dt.
  replace ((x0 + xN) / 2) with (1 / 2 * (x0 + xN)) by field.
  repeat (split; [assumption |]). reflexivity.
Qed.

(** C5.  [along_track_length_km] is the haversine great-circle distance, on
    a sphere of radius 6371 km, between the subpoints of the satellite at
    the first and at the last timestamp (the two points the record returns
    as [first_subpoint] and [last_subpoint]), and
    [along_track_pixel_size_m] is that length times 1000 over
    [image_height_px]. *)
Theorem along_track_length_is_great_circle_distance
  (product : list (string * value)) (ts : list value) (m : metrics) :
  dict_get product "timestamps" (VList []) = VList ts ->
  compute_product_metrics product = Ok m ->
  exists t_first t_last tle sat t_0 t_N,
    hd_error ts = Some t_first /\
    last ts t_last = t_last /\
    dict_get product "tle" (VDict []) = VDict tle /\
    EarthSatellite (dict_get tle "line1" VNone) (dict_get tle "line2" VNone)
                   (dict_get tle "name" (VStr "sat")) = Ok sat /\
    to_sf_time t_first = Ok t_0 /\
    to_sf_time t_last = Ok t_N /\
    first_subpoint m =
      {| end_lat_deg := latitude_degrees (subpoint_at sat t_0);
         end_lon_deg := longitude_degrees (subpoint_at sat t_0) |} /\
    last_subpoint m =
      {| end_lat_deg := latitude_degrees (subpoint_at sat t_N);
         end_lon_deg := longitude_degrees (subpoint_at sat t_N) |} /\
    along_track_length_km m =
      spec_great_circle_km (end_lat_deg (first_subpoint m)) (end_lon_deg (first_subpoint m))
                           (end_lat_deg (last_subpoint m)) (end_lon_deg (last_subpoint m)) /\
    image_height_px m = Z.of_nat (List.length ts) /\
    image_height_px m <> 0%Z /\
    along_track_pixel_size_m m =
      along_track_length_km m * 1000 / IZR (image_height_px m).
Proof.
  intros Hts Hm.
  destruct (compute_product_metrics_inv _ _ Hm)
    as (cfg & w & h & t0 & tN & x0 & xN & mid_dt & tle & sat & dt0 & dtN & along & s
        & _ & _ & Hlen & Hh & H0 & HN & Hx0 & HxN & _ & Htle & _ & _ & Hsat & Hdt0 & HdtN
        & Hhav & _ & _ & ->).
  rewrite Hts in *.
  destruct (getitem_list_inv _ _ _ _ Hlen H0 HN ts eq_refl) as (-> & Hhd & _ & Hlast).
  exists t0, tN, tle, sat, (ts_utc dt0), (ts_utc dtN). cbn.
  repeat split; try assumption.
  - unfold to_sf_time, fromtimestamp. now rewrite Hx0, Hdt0.
  - unfold to_sf_time, fromtimestamp. now rewrite HxN, HdtN.
  - now apply haversine_km_great_circle.
Qed.

(** C9.  When both areas are returned, the per-pixel area is the total area
    divided by the number of pixels, [image_width_px * image_height_px]
    (which is not zero). *)
Theorem per_pixel_area_shares_total_area
  (product : list (string * value)) (m : metrics) (a p : R) :
  compute_product_metrics product = Ok m ->
  total_ground_area_km2 m = Some a ->
  per_pixel_area_km2 m = Some p ->
  IZR (image_width_px m) * IZR (image_height_px m) <> 0 /\
  p = a / (IZR (image_width_px m) * IZR (image_height_px m)).
Proof.
  intros Hm Ha Hp.
  destruct (compute_product_metrics_inv _ _ Hm)
    as (cfg & w & h & t0 & tN & x0 & xN & mid_dt & tle & sat & dt0 & dtN & along & s
        & _ & _ & _ & Hh & _ & _ & _ & _ & _ & _ & _ & _ & _ & _ & _ & _ & _ & Hw & ->).
  cbn in Ha, Hp |- *.
  set (swath := 2 * elevation_km (subpoint_at sat (ts_utc mid_dt)) * tan (radians (s / 2))) in *.
  destruct (nonzero s) eqn:Es; [| discriminate Ha].
  apply nonzero_true_iff in Es.
  apply float_or_None_Some in Ha as [Ha Ha0]. injection Ha as <-.
  apply float_or_None_Some in Hp as [Hp _]. injection Hp as <-.
  assert (Hsw : swath <> 0) by (intros Hz; apply Ha0; rewrite Hz; ring).
  assert (Hw' : IZR w <> 0) by (apply not_0_IZR; auto).
  assert (Hh' : IZR h <> 0) by (now apply not_0_IZR).
  split; [now apply Rmult_integral_contrapositive_currified |].
  field. auto.
Qed.

(** C10.  The image width is read and converted first: a product without
    [projection_cfg] or without [image_width] fails with the error of
    [int(None)], whatever its timestamps and TLE; and once the width is
    read, a series of length zero raises [EmptyTimestampSeries], whatever
    the TLE. *)
Theorem image_width_is_converted_before_any_validation
  (product : list (string * value)) :
  (lacks_image_width product ->
   compute_product_metrics product = Raise IntConversionError) /\
  (forall w, read_image_width product = Ok w ->
   py_len (dict_get product "timestamps" (VList [])) = Ok 0%Z ->
   compute_product_metrics product = Raise EmptyTimestampSeries).
Proof.
  split.
  - intros Hlack. unfold compute_product_metrics. cbv zeta. unfold dict_get at 1.
    destruct Hlack as [Hnone | (items & Hsome & Hw)].
    + rewrite Hnone. reflexivity.
    + rewrite Hsome. cbn [method_get bind]. unfold dict_get at 1. rewrite Hw. reflexivity.
  - intros w Hw Hlen. unfold read_image_width in Hw. cbv zeta in Hw.
    unfold compute_product_metrics. cbv zeta.
    destruct (method_get _ "image_width" VNone) as [width_v |]; cbn [bind] in Hw |- *;
      [| discriminate Hw].
    rewrite Hw. cbn [bind]. rewrite Hlen. reflexivity.
Qed.

(** C1 (the code departs from the claim).  For a product with a single
    timestamp the first and the last subpoint coincide, the along-track
    length is 0, and the record has neither a total area nor a per-pixel
    area, whatever the scan angle: the two area fields are null although the
    swath and the across-track pixel size need not be. *)
Theorem single_scan_line_has_null_areas
  (product : list (string * value)) (t : value) (m : metrics) :
  dict_get product "timestamps" (VList []) = VList [t] ->
  compute_product_metrics product = Ok m ->
  along_track_length_km m = 0 /\
  total_ground_area_km2 m = None /\
  per_pixel_area_km2 m = None.
Proof.
  intros Hts Hm.
  destruct (compute_product_metrics_inv _ _ Hm)
    as (cfg & w & h & t0 & tN & x0 & xN & mid_dt & tle & sat & dt0 & dtN & along & s
        & _ & _ & _ & _ & H0 & HN & Hx0 & HxN & _ & _ & _ & _ & _ & Hdt0 & HdtN
        & Hhav & _ & _ & ->).
  rewrite Hts in H0, HN. cbn in H0, HN. injection H0 as <-. injection HN as <-.
  rewrite Hx0 in HxN. injection HxN as <-.
  rewrite Hdt0 in HdtN. injection HdtN as <-.
  rewrite haversine_km_same_point in Hhav. injection Hhav as <-.
  cbn. split; [reflexivity |].
  destruct (nonzero s); [| auto].
  split; apply float_or_None_zero; unfold Rdiv; ring.
Qed.

(** C6 (the code departs from the claim).  Whenever the along-track length
    of a returned record is 0, [total_ground_area_km2] is null, also when
    the scan angle is positive and the swath is returned: the product
    swath times length, which is 0, is not reported. *)
Theorem zero_length_track_reports_no_area
  (product : list (string * value)) (m : metrics) :
  compute_product_metrics product = Ok m ->
  along_track_length_km m = 0 ->
  total_ground_area_km2 m = None /\
  forall swath, across_track_swath_km m = Some swath ->
    total_ground_area_km2 m <> Some (swath * along_track_length_km m).
Proof.
  intros Hm Hz.
  destruct (compute_product_metrics_inv _ _ Hm)
    as (cfg & w & h & t0 & tN & x0 & xN & mid_dt & tle & sat & dt0 & dtN & along & s
        & _ & _ & _ & _ & _ & _ & _ & _ & _ & _ & _ & _ & _ & _ & _ & _ & _ & _ & ->).
  cbn in Hz |- *. subst along.
  assert (Hnull : (if nonzero s
                   then float_or_None
                          (Some (2 * elevation_km (subpoint_at sat (ts_utc mid_dt))
                                 * tan (radians (s / 2)) * 0))
                   else None) = None).
  { destruct (nonzero s); [| reflexivity]. apply float_or_None_zero. ring. }
  rewrite Hnull. split; [reflexivity | intros swath _; discriminate].
Qed.

(** X1.  With a scan angle that is zero or absent the four across-track fields
    and [fov_deg] are all null. *)
Theorem zero_scan_angle_nulls_across_track_fields
  (product : list (string * value)) (cfg : list (string * value)) (m : metrics) :
  compute_product_metrics product = Ok m ->
  dict_get product "projection_cfg" (VDict []) = VDict cfg ->
  truthy (dict_get cfg "scan_angle" (VFloat 0)) = false ->
  across_track_swath_km m = None /\
  across_track_pixel_size_m m = None /\
  total_ground_area_km2 m = None /\
  per_pixel_area_km2 m = None /\
  fov_deg m = None.
Proof.
  intros Hm Hcfg Hscan.
  destruct (compute_product_metrics_inv _ _ Hm)
    as (cfg' & w & h & t0 & tN & x0 & xN & mid_dt & tle & sat & dt0 & dtN & along & s
        & Hcfg' & _ & _ & _ & _ & _ & _ & _ & _ & _ & _ & _ & _ & _ & _ & _ & Hs & _ & ->).
  rewrite Hcfg in Hcfg'. injection Hcfg' as <-.
  rewrite (truthy_as_real _ _ Hs) in Hscan. cbn. rewrite Hscan. auto.
Qed.

(** X2.  With a non-zero scan angle, a non-zero swath and a non-zero along-track
    length, the four across-track fields are all returned, with the values
    of the formulas, and [fov_deg] is the scan angle. *)
Theorem nonzero_scan_angle_fills_across_track_fields
  (product : list (string * value)) (cfg : list (string * value)) (m : metrics)
  (scan : R) :
  compute_product_metrics product = Ok m ->
  dict_get product "projection_cfg" (VDict []) = VDict cfg ->
  as_real (dict_get cfg "scan_angle" (VFloat 0)) = Some scan ->
  scan <> 0 ->
  alt_km (mid_subpoint m) * tan (radians (scan / 2)) <> 0 ->
  along_track_length_km m <> 0 ->
  let swath := 2 * alt_km (mid_subpoint m) * tan (radians (scan / 2)) in
  image_width_px m <> 0%Z /\
  across_track_swath_km m = Some swath /\
  across_track_pixel_size_m m = Some (swath * 1000 / IZR (image_width_px m)) /\
  total_ground_area_km2 m = Some (swath * along_track_length_km m) /\
  per_pixel_area_km2 m =
    Some (along_track_pixel_size_m m * (swath * 1000 / IZR (image_width_px m)) / 1000000) /\
  fov_deg m = Some scan.
Proof.
  intros Hm Hcfg Hscan Hs0 Hsw Hal.
  destruct (compute_product_metrics_inv _ _ Hm)
    as (cfg' & w & h & t0 & tN & x0 & xN & mid_dt & tle & sat & dt0 & dtN & along & s
        & Hcfg' & _ & _ & Hh & _ & _ & _ & _ & _ & _ & _ & _ & _ & _ & _ & _ & Hs & Hw & ->).
  rewrite Hcfg in Hcfg'. injection Hcfg' as <-.
  rewrite Hscan in Hs. injection Hs as <-.
  cbn in Hsw, Hal |- *.
  set (swath := 2 * elevation_km (subpoint_at sat (ts_utc mid_dt)) * tan (radians (scan / 2))) in *.
  assert (Hsw' : swath <> 0) by (unfold swath; intros Hz; apply Hsw; lra).
  assert (Hw' : IZR w <> 0) by (apply not_0_IZR; auto).
  assert (Hh' : IZR h <> 0) by (now apply not_0_IZR).
  rewrite (nonzero_true _ Hs0).
  assert (Hpix : swath * 1000 / IZR w <> 0).
  { intros Hz. apply Hsw'.
    replace swath with (swath * 1000 / IZR w * IZR w / 1000) by (field; assumption).
    rewrite Hz. field. }
  assert (Hpal : along * 1000 / IZR h <> 0).
  { intros Hz. apply Hal.
    replace along with (along * 1000 / IZR h * IZR h / 1000) by (field; assumption).
    rewrite Hz. field. }
  assert (Harea : swath * along <> 0)
    by (now apply Rmult_integral_contrapositive_currified).
  assert (Hpp : along * 1000 / IZR h * (swath * 1000 / IZR w) / 1000000 <> 0).
  { intros Hz.
    assert (Hprod : along * 1000 / IZR h * (swath * 1000 / IZR w) = 0) by lra.
    apply Rmult_integral in Hprod. tauto. }
  rewrite !float_or_None_nonzero by assumption.
  repeat split; auto.
Qed.


Lemma py_add_numbers (a b : value) (x0 xN : R) :
  as_real a = Some x0 -> as_real b = Some xN ->
  exists v x, py_add a b = Ok v /\ as_real v = Some x /\ x = x0 + xN.
Proof.
  destruct a as [| p | z | x | sa | la | da], b as [| q | w | x' | sb | lb | db];
    cbn; intros Ha Hb; try discriminate; injection Ha as <-; injection Hb as <-;
    eexists; eexists; (split; [reflexivity | split; [reflexivity |]]);
    try rewrite plus_IZR; try destruct p; try destruct q; cbn; try reflexivity; try ring.
Qed.

(** [compute_product_metrics] returns a record on every well-formed
    product: a projection configuration with a non-zero integer width and a
    numeric (or absent) scan angle, a non-empty list of timestamps whose
    first and last entries are numbers that [datetime] accepts together
    with their mean, and a TLE with two non-empty lines that the propagator
    accepts, the propagator returning latitudes between -90 and 90. *)
Theorem compute_product_metrics_returns
  (product cfg tle : list (string * value)) (w : Z) (t_first : value)
  (rest : list value) (x0 xN s : R) (mid_dt dt0 dtN : DateTime) (sat : Satellite) :
  dict_get product "projection_cfg" (VDict []) = VDict cfg ->
  py_int (dict_get cfg "image_width" VNone) = Ok w ->
  w <> 0%Z ->
  as_real (dict_get cfg "scan_angle" (VFloat 0)) = Some s ->
  dict_get product "timestamps" (VList []) = VList (t_first :: rest) ->
  as_real t_first = Some x0 ->
  as_real (last rest t_first) = Some xN ->
  datetime_fromtimestamp ((x0 + xN) / 2) = Ok mid_dt ->
  datetime_fromtimestamp x0 = Ok dt0 ->
  datetime_fromtimestamp xN = Ok dtN ->
  dict_get product "tle" (VDict []) = VDict tle ->
  truthy (dict_get tle "line1" VNone) = true ->
  truthy (dict_get tle "line2" VNone) = true ->
  EarthSatellite (dict_get tle "line1" VNone) (dict_get tle "line2" VNone)
                 (dict_get tle "name" (VStr "sat")) = Ok sat ->
  (forall t, -90 <= latitude_degrees (subpoint_at sat t) <= 90) ->
  exists m, compute_product_metrics product = Ok m.
Proof.
  intros Hcfg Hw Hw0 Hs Hts Hx0 HxN Hmid Hdt0 HdtN Htle Hl1 Hl2 Hsat Hlat.
  assert (HgetN : py_getitem (VList (t_first :: rest)) (-1) = Ok (last rest t_first)).
  { apply py_getitem_last. split; [discriminate |]. apply last_cons_default. }
  destruct (py_add_numbers _ _ _ _ Hx0 HxN) as (v & x & Hadd & Hv & ->).
  assert (Hmid' : datetime_fromtimestamp (1 / 2 * (x0 + xN)) = Ok mid_dt).
  { replace (1 / 2 * (x0 + xN)) with ((x0 + xN) / 2) by field. exact Hmid. }
  destruct (haversine_km_defined
              (latitude_degrees (subpoint_at sat (ts_utc dt0)))
              (longitude_degrees (subpoint_at sat (ts_utc dt0)))
              (latitude_degrees (subpoint_at sat (ts_utc dtN)))
              (longitude_degrees (subpoint_at sat (ts_utc dtN)))
              (Hlat _) (Hlat _)) as [Hhav _].
  unfold compute_product_metrics. cbv zeta.
  rewrite Hcfg, Htle, Hts. cbn [method_get bind]. rewrite Hw. cbn [bind py_len].
  replace (Z.of_nat (List.length (t_first :: rest)) =? 0)%Z with false
    by (symmetry; apply Z.eqb_neq; cbn [List.length]; lia).
  replace (py_getitem (VList (t_first :: rest)) 0) with (Ok t_first) by reflexivity.
  rewrite HgetN. cbn [bind]. rewrite Hadd. cbn [bind].
  unfold float_mul. rewrite Hv. cbn [bind].
  unfold to_sf_time, fromtimestamp. cbn [as_real]. rewrite Hmid'. cbn [bind].
  rewrite Hl1, Hl2. cbn [negb orb]. rewrite Hsat. cbn [bind].
  rewrite Hx0, HxN, Hdt0, HdtN. cbn [bind]. rewrite Hhav. cbn [bind].
  unfold float_div_int.
  replace (Z.of_nat (List.length (t_first :: rest)) =? 0)%Z with false
    by (symmetry; apply Z.eqb_neq; cbn [List.length]; lia).
  apply Z.eqb_neq in Hw0. rewrite Hw0. cbn [bind].
  unfold div_float. rewrite Hs. cbn [bind].
  destruct (truthy (dict_get cfg "scan_angle" (VFloat 0))).
  - destruct (nonzero _); cbn [bind]; eexists; reflexivity.
  - cbn [bind]. eexists; reflexivity.
Qed.

(** Past the image width and the mid time, a TLE without two non-empty
    lines raises [MissingTLE]. *)
Lemma compute_product_metrics_without_tle
  (product : list (string * value)) (w : Z) (t_first : value) (rest : list value)
  (x0 xN : R) (mid_dt : DateTime) :
  read_image_width product = Ok w ->
  dict_get product "timestamps" (VList []) = VList (t_first :: rest) ->
  as_real t_first = Some x0 ->
  as_real (last rest t_first) = Some xN ->
  datetime_fromtimestamp ((x0 + xN) / 2) = Ok mid_dt ->
  tle_lines_missing product ->
  compute_product_metrics product = Raise MissingTLE.
Proof.
  intros Hw Hts Hx0 HxN Hmid (tle & Htle & Hlines).
  assert (HgetN : py_getitem (VList (t_first :: rest)) (-1) = Ok (last rest t_first)).
  { apply py_getitem_last. split; [discriminate |]. apply last_cons_default. }
  destruct (py_add_numbers _ _ _ _ Hx0 HxN) as (v & x & Hadd & Hv & ->).
  assert (Hmid' : datetime_fromtimestamp (1 / 2 * (x0 + xN)) = Ok mid_dt).
  { replace (1 / 2 * (x0 + xN)) with ((x0 + xN) / 2) by field. exact Hmid. }
  unfold read_image_width in Hw. cbv zeta in Hw.
  unfold compute_product_metrics. cbv zeta.
  destruct (method_get _ "image_width" VNone) as [width_v |]; cbn [bind] in Hw |- *;
    [| discriminate Hw].
  rewrite Hw, Hts, Htle. cbn [bind py_len method_get].
  replace (Z.of_nat (List.length (t_first :: rest)) =? 0)%Z with false
    by (symmetry; apply Z.eqb_neq; cbn [List.length]; lia).
  replace (py_getitem (VList (t_first :: rest)) 0) with (Ok t_first) by reflexivity.
  rewrite HgetN. cbn [bind]. rewrite Hadd. cbn [bind].
  unfold float_mul. rewrite Hv. cbn [bind].
  unfold fromtimestamp. cbn [as_real]. rewrite Hmid'. cbn [bind].
  destruct Hlines as [H | H]; rewrite H; cbn [negb orb]; [reflexivity |].
  rewrite orb_true_r. reflexivity.
Qed.

End WithCollaborators.

(** ** Runs with the stand-in collaborators *)

Lemma tan_one_degree_pos : 0 < tan (radians (2 / 2)).
Proof.
  pose proof PI_RGT_0 as Hpi. apply tan_gt_0; unfold radians; lra.
Qed.

Lemma haversine_km_equator_antipodes : haversine_km 0 0 0 180 = Ok (6371 * PI).
Proof.
  destruct (haversine_km_defined 0 0 0 180) as [H _]; [lra | lra |].
  rewrite H. f_equal. unfold spec_great_circle_km.
  replace (radians 0 - radians 0) with 0 by ring.
  replace (radians 180 - radians 0) with PI by (unfold radians; field).
  replace (radians 0) with 0 by (unfold radians; ring).
  rewrite hav_0, cos_0. unfold hav. rewrite sin_PI2.
  replace (0 + 1 * 1 * 1 ^ 2) with 1 by ring.
  rewrite sqrt_1, asin_1. field.
Qed.

Ltac mock_inv Hm :=
  destruct (compute_product_metrics_inv (collaborators := mock_collaborators) _ _ Hm)
    as (cfg & w & h & t0 & tN & x0 & xN & mid_dt & tle & sat & dt0 & dtN & along & s
        & Hcfg & Hw & Hlen & _ & H0 & HN & Hx0 & HxN & Hmid & _ & _ & _ & _ & Hdt0 & HdtN
        & Hhav & Hs & _ & Hrec);
  cbn in Hcfg; injection Hcfg as <-;
  cbn in Hw; injection Hw as <-;
  cbn in Hlen; injection Hlen as <-;
  cbn in H0; injection H0 as <-;
  cbn in HN; injection HN as <-;
  cbn in Hx0; injection Hx0 as <-;
  cbn in HxN; injection HxN as <-;
  cbn in Hmid; injection Hmid as <-;
  cbn in Hdt0; injection Hdt0 as <-;
  cbn in HdtN; injection HdtN as <-;
  cbn in Hs; injection Hs as <-;
  cbn in Hhav.

Lemma mock_three_lines_run :
  exists m,
    compute_product_metrics (collaborators := mock_collaborators) product_three_lines = Ok m /\
    image_width_px m = 1000%Z /\
    image_height_px m = 3%Z /\
    alt_km (mid_subpoint m) = 500 /\
    along_track_length_km m = 6371 * PI /\
    across_track_swath_km m = Some (2 * 500 * tan (radians (2 / 2))) /\
    total_ground_area_km2 m = Some (2 * 500 * tan (radians (2 / 2)) * (6371 * PI)) /\
    exists p, per_pixel_area_km2 m = Some p.
Proof.
  destruct (compute_product_metrics_returns (collaborators := mock_collaborators)
              product_three_lines
              [("image_width", VInt 1000); ("scan_angle", VFloat 2)]
              [("name", VStr "SAT");
               ("line1", VStr "1 00005U 58002B   00179.78495062  .00000023  00000-0  28098-4 0  4753");
               ("line2", VStr "2 00005  34.2682 348.7242 1859667 331.7664  19.3264 10.82419157413667")]
              1000 (VInt 962131820) [VInt 962131910; VInt 962132000] 962131820 962132000 2
              ((962131820 + 962132000) / 2) 962131820 962132000 tt)
    as [m Hm]; [reflexivity | reflexivity | lia | reflexivity | reflexivity | reflexivity
               | reflexivity | reflexivity | reflexivity | reflexivity | reflexivity
               | reflexivity | reflexivity | reflexivity | cbn; intros; lra |].
  exists m. split; [exact Hm |].
  mock_inv Hm.
  unfold sample_epoch in Hhav.
  replace (962131820 - 962131820) with 0 in Hhav by lra.
  replace (962132000 - 962131820) with 180 in Hhav by lra.
  rewrite haversine_km_equator_antipodes in Hhav. injection Hhav as <-.
  subst m. cbn.
  pose proof tan_one_degree_pos as Htan. pose proof PI_RGT_0 as Hpi.
  assert (H2 : (2 : R) <> 0) by lra.
  assert (Hsw : 2 * 500 * tan (radians (2 / 2)) <> 0) by lra.
  assert (Harea : 2 * 500 * tan (radians (2 / 2)) * (6371 * PI) <> 0).
  { apply Rmult_integral_contrapositive_currified; lra. }
  assert (Hpp : 6371 * PI * 1000 / 3 * (2 * 500 * tan (radians (2 / 2)) * 1000 / 1000)
                / 1000000 <> 0).
  { intros Hz.
    assert (Hprod : 6371 * PI * 1000 / 3 * (2 * 500 * tan (radians (2 / 2)) * 1000 / 1000) = 0)
      by lra.
    apply Rmult_integral in Hprod. destruct Hprod; lra. }
  rewrite (nonzero_true 2 H2), !float_or_None_nonzero by assumption.
  repeat split. eexists. reflexivity.
Qed.

Lemma mock_single_line_run :
  exists m,
    compute_product_metrics (collaborators := mock_collaborators) product_single_line = Ok m /\
    across_track_swath_km m = Some (2 * 500 * tan (radians (2 / 2))) /\
    across_track_pixel_size_m m = Some (2 * 500 * tan (radians (2 / 2)) * 1000 / 1000) /\
    fov_deg m = Some 2 /\
    along_track_length_km m = 0.
Proof.
  destruct (compute_product_metrics_returns (collaborators := mock_collaborators)
              product_single_line
              [("image_width", VInt 1000); ("scan_angle", VFloat 2)]
              [("name", VStr "SAT");
               ("line1", VStr "1 00005U 58002B   00179.78495062  .00000023  00000-0  28098-4 0  4753");
               ("line2", VStr "2 00005  34.2682 348.7242 1859667 331.7664  19.3264 10.82419157413667")]
              1000 (VInt 962131820) [] 962131820 962131820 2
              ((962131820 + 962131820) / 2) 962131820 962131820 tt)
    as [m Hm]; [reflexivity | reflexivity | lia | reflexivity | reflexivity | reflexivity
               | reflexivity | reflexivity | reflexivity | reflexivity | reflexivity
               | reflexivity | reflexivity | reflexivity | cbn; intros; lra |].
  exists m. split; [exact Hm |].
  mock_inv Hm.
  rewrite haversine_km_same_point in Hhav. injection Hhav as <-.
  subst m. cbn.
  pose proof tan_one_degree_pos as Htan.
  assert (H2 : (2 : R) <> 0) by lra.
  assert (Hsw : 2 * 500 * tan (radians (2 / 2)) <> 0) by lra.
  assert (Hpix : 2 * 500 * tan (radians (2 / 2)) * 1000 / 1000 <> 0) by lra.
  rewrite (nonzero_true 2 H2), !float_or_None_nonzero by assumption.
  repeat split.
Qed.

Lemma mock_no_scan_angle_run :
  exists m,
    compute_product_metrics (collaborators := mock_collaborators) product_no_scan_angle = Ok m.
Proof.
  apply (compute_product_metrics_returns (collaborators := mock_collaborators)
           product_no_scan_angle
           [("image_width", VInt 1000)]
           [("name", VStr "SAT");
            ("line1", VStr "1 00005U 58002B   00179.78495062  .00000023  00000-0  28098-4 0  4753");
            ("line2", VStr "2 00005  34.2682 348.7242 1859667 331.7664  19.3264 10.82419157413667")]
           1000 (VInt 962131820) [VInt 962131910; VInt 962132000] 962131820 962132000 0
           ((962131820 + 962132000) / 2) 962131820 962132000 tt);
    [reflexivity | reflexivity | lia | cbn; reflexivity | reflexivity | reflexivity
     | reflexivity | reflexivity | reflexivity | reflexivity | reflexivity
     | reflexivity | reflexivity | reflexivity | cbn; intros; lra].
Qed.

(** ** Witnesses: the theorems at concrete products *)

(** C3, the claim as stated fails.  On an empty series without a
    projection configuration the call does not fail with
    [EmptyTimestampSeries]: the conversion of the image width comes first
    and raises [TypeError]. *)
Lemma empty_series_without_image_width_is_a_type_error :
  dict_get [("timestamps", @VList R [])] "timestamps" (VList []) = VList [] /\
  compute_product_metrics (collaborators := mock_collaborators)
    [("timestamps", VList [])] = Raise IntConversionError /\
  compute_product_metrics (collaborators := mock_collaborators)
    [("timestamps", VList [])] <> Raise EmptyTimestampSeries.
Proof. repeat split. discriminate. Qed.

Lemma empty_series_fails_and_height_counts_witness :
  compute_product_metrics (collaborators := mock_collaborators) product_empty
    = Raise EmptyTimestampSeries /\
  exists m,
    compute_product_metrics (collaborators := mock_collaborators) product_three_lines = Ok m /\
    image_height_px m = 3%Z.
Proof.
  split.
  - exact (proj1 (proj2 (proj1 (empty_series_fails_and_height_counts_every_sample
                                  (collaborators := mock_collaborators) product_empty []
                                  eq_refl)
                               eq_refl)) 1000%Z eq_refl).
  - destruct mock_three_lines_run as (m & Hm & _). exists m. split; [exact Hm |].
    exact (proj2 (proj2 (empty_series_fails_and_height_counts_every_sample
                           (collaborators := mock_collaborators) product_three_lines
                           [VInt 962131820; VInt 962131910; VInt 962132000] eq_refl) m Hm)).
Defined.

Lemma mid_datetime_is_mean_witness :
  exists m x0 xN,
    compute_product_metrics (collaborators := mock_collaborators) product_three_lines = Ok m /\
    as_real (VInt 962131820) = Some x0 /\
    as_real (VInt 962132000) = Some xN /\
    mid_datetime m = isoformat (Collaborators := mock_collaborators) ((x0 + xN) / 2).
Proof.
  destruct mock_three_lines_run as (m & Hm & _).
  destruct (mid_datetime_is_mean_of_first_and_last
              (collaborators := mock_collaborators) product_three_lines
              [VInt 962131820; VInt 962131910; VInt 962132000] m eq_refl Hm)
    as (t_first & t_last & x0 & xN & mid_dt & Hhd & Hlast & Hx0 & HxN & Hmid & Hiso).
  cbn in Hhd, Hlast. injection Hhd as <-. subst t_last.
  cbn in Hmid. injection Hmid as <-.
  exists m, x0, xN. auto.
Defined.

Lemma along_track_length_witness :
  exists m,
    compute_product_metrics (collaborators := mock_collaborators) product_three_lines = Ok m /\
    along_track_length_km m =
      spec_great_circle_km (end_lat_deg (first_subpoint m)) (end_lon_deg (first_subpoint m))
                           (end_lat_deg (last_subpoint m)) (end_lon_deg (last_subpoint m)) /\
    along_track_pixel_size_m m = along_track_length_km m * 1000 / 3.
Proof.
  destruct mock_three_lines_run as (m & Hm & _ & Hh & _).
  destruct (along_track_length_is_great_circle_distance
              (collaborators := mock_collaborators) product_three_lines
              [VInt 962131820; VInt 962131910; VInt 962132000] m eq_refl Hm)
    as (t_first & t_last & tle & sat & t_0 & t_N
        & _ & _ & _ & _ & _ & _ & _ & _ & Hgc & Hlen & _ & Hpix).
  exists m. rewrite Hh in Hpix. auto.
Defined.

Lemma per_pixel_area_witness :
  exists m a p,
    compute_product_metrics (collaborators := mock_collaborators) product_three_lines = Ok m /\
    total_ground_area_km2 m = Some a /\
    per_pixel_area_km2 m = Some p /\
    p = a / (IZR 1000 * IZR 3).
Proof.
  destruct mock_three_lines_run as (m & Hm & Hw & Hh & _ & _ & _ & Ha & p & Hp).
  exists m, (2 * 500 * tan (radians (2 / 2)) * (6371 * PI)), p.
  repeat split; try assumption.
  destruct (per_pixel_area_shares_total_area
              (collaborators := mock_collaborators) product_three_lines m _ p Hm Ha Hp)
    as [_ Heq].
  rewrite Hw, Hh in Heq. exact Heq.
Defined.

Lemma image_width_is_converted_first_witness :
  lacks_image_width [] /\
  compute_product_metrics (collaborators := mock_collaborators) [] = Raise IntConversionError /\
  compute_product_metrics (collaborators := mock_collaborators) product_empty
    = Raise EmptyTimestampSeries.
Proof.
  pose proof (image_width_is_converted_before_any_validation
                (collaborators := mock_collaborators) []) as [Hnone _].
  pose proof (image_width_is_converted_before_any_validation
                (collaborators := mock_collaborators) product_empty) as [_ Hempty].
  assert (Hlack : lacks_image_width []) by (left; reflexivity).
  split; [exact Hlack |]. split.
  - exact (Hnone Hlack).
  - exact (Hempty 1000%Z eq_refl eq_refl).
Defined.

Lemma single_scan_line_witness :
  exists m,
    compute_product_metrics (collaborators := mock_collaborators) product_single_line = Ok m /\
    fov_deg m = Some 2 /\
    across_track_swath_km m <> None /\
    across_track_pixel_size_m m <> None /\
    total_ground_area_km2 m = None /\
    per_pixel_area_km2 m = None.
Proof.
  destruct mock_single_line_run as (m & Hm & Hsw & Hpix & Hfov & _).
  destruct (single_scan_line_has_null_areas
              (collaborators := mock_collaborators) product_single_line (VInt 962131820) m eq_refl Hm)
    as (_ & Harea & Hpp).
  exists m. rewrite Hsw, Hpix. repeat split; try assumption; discriminate.
Defined.

Lemma zero_length_track_witness :
  exists m swath,
    compute_product_metrics (collaborators := mock_collaborators) product_single_line = Ok m /\
    fov_deg m = Some 2 /\
    across_track_swath_km m = Some swath /\
    total_ground_area_km2 m = None /\
    total_ground_area_km2 m <> Some (swath * along_track_length_km m).
Proof.
  destruct mock_single_line_run as (m & Hm & Hsw & _ & Hfov & Hal).
  destruct (zero_length_track_reports_no_area
              (collaborators := mock_collaborators) product_single_line m Hm Hal)
    as [Hnull Hne].
  exists m, (2 * 500 * tan (radians (2 / 2))).
  repeat split; try assumption. exact (Hne _ Hsw).
Defined.

Lemma zero_scan_angle_witness :
  exists m,
    compute_product_metrics (collaborators := mock_collaborators) product_no_scan_angle = Ok m /\
    across_track_swath_km m = None /\
    across_track_pixel_size_m m = None /\
    total_ground_area_km2 m = None /\
    per_pixel_area_km2 m = None /\
    fov_deg m = None.
Proof.
  destruct mock_no_scan_angle_run as (m & Hm).
  exists m. split; [exact Hm |].
  apply (zero_scan_angle_nulls_across_track_fields
           (collaborators := mock_collaborators) product_no_scan_angle
           [("image_width", VInt 1000)] m Hm eq_refl).
  cbn. apply nonzero_zero.
Defined.

Lemma nonzero_scan_angle_witness :
  exists m,
    compute_product_metrics (collaborators := mock_collaborators) product_three_lines = Ok m /\
    across_track_swath_km m = Some (2 * alt_km (mid_subpoint m) * tan (radians (2 / 2))) /\
    total_ground_area_km2 m =
      Some (2 * alt_km (mid_subpoint m) * tan (radians (2 / 2)) * along_track_length_km m) /\
    fov_deg m = Some 2.
Proof.
  destruct mock_three_lines_run as (m & Hm & _ & _ & Halt & Hal & _).
  pose proof tan_one_degree_pos as Htan. pose proof PI_RGT_0 as Hpi.
  assert (H2 : (2 : R) <> 0) by lra.
  assert (Hsw : alt_km (mid_subpoint m) * tan (radians (2 / 2)) <> 0)
    by (rewrite Halt; lra).
  assert (Hal0 : along_track_length_km m <> 0) by (rewrite Hal; lra).
  destruct (nonzero_scan_angle_fills_across_track_fields
              (collaborators := mock_collaborators) product_three_lines
              [("image_width", VInt 1000); ("scan_angle", VFloat 2)] m 2
              Hm eq_refl eq_refl H2 Hsw Hal0)
    as (_ & Hswath & _ & Harea & _ & Hfov).
  exists m. auto.
Defined.

End MetricsFacts.

(** * Facts about the pass geometry engine *)

Module PassDataFacts.

Import PassData.

Lemma filter_complement_length {A : Type} (f : A -> bool) (l : list A) :
  List.length (filter (fun x => negb (f x)) l)
  = (List.length l - List.length (filter f l))%nat.
Proof.
  induction l as [| a l IH]; [reflexivity |].
  pose proof (filter_length_le f l) as Hle.
  cbn [filter]. destruct (f a); cbn [negb List.length]; rewrite ?IH; lia.
Qed.

Section WithCollaborators.

Context {collaborators : Collaborators}.

(** Once the timestamp is converted, the row is always built. *)
Lemma sample_returns (satellite : Satellite) (t : value) :
  (exists dt, utcfromtimestamp t = Ok dt) <-> (exists row, sample satellite t = Ok row).
Proof.
  unfold sample. split.
  - intros [dt ->]. cbn [bind].
    destruct (altaz satellite observer (ts_utc dt)) as [[alt az] dist].
    destruct (wgs84_subpoint satellite (ts_utc dt)) as [lat lon].
    eexists. reflexivity.
  - intros [row H]. destruct (utcfromtimestamp t) as [dt |]; [eauto | discriminate H].
Qed.

(** A skipped entry leaves the rows untouched. *)
Lemma records_loop_skip (satellite : Satellite) (t : value) (rest : list value)
  (records : list record) :
  skipped t = true ->
  records_loop satellite (t :: rest) records = records_loop satellite rest records.
Proof. intros H. cbn [records_loop]. now rewrite H. Qed.

(** A kept entry appends its row, or aborts the loop. *)
Lemma records_loop_keep (satellite : Satellite) (t : value) (rest : list value)
  (records : list record) :
  skipped t = false ->
  records_loop satellite (t :: rest) records
  = (row <- sample satellite t ;; records_loop satellite rest (records ++ [row])%list).
Proof. intros H. cbn [records_loop]. now rewrite H. Qed.

(** The loop, when every kept entry converts: the rows of the kept entries,
    in order, after the rows gathered so far. *)
Lemma records_loop_rows (satellite : Satellite) (timestamps : list value) :
  Forall (fun t => skipped t = false -> exists dt, utcfromtimestamp t = Ok dt) timestamps ->
  forall records, exists rows,
    records_loop satellite timestamps records = Ok (records ++ rows)%list /\
    Forall2 (fun t row => sample satellite t = Ok row)
            (filter (fun t => negb (skipped t)) timestamps) rows.
Proof.
  induction 1 as [| t rest Ht _ IH]; intros records.
  - exists []. rewrite app_nil_r. split; [reflexivity | constructor].
  - destruct (skipped t) eqn:Es.
    + rewrite (records_loop_skip _ _ _ _ Es). cbn [filter]. rewrite Es. cbn [negb].
      apply IH.
    + rewrite (records_loop_keep _ _ _ _ Es). cbn [filter]. rewrite Es. cbn [negb].
      destruct (proj1 (sample_returns satellite t) (Ht eq_refl)) as [row Hrow].
      rewrite Hrow. cbn [bind].
      destruct (IH (records ++ [row])%list) as (rows & Hloop & Hrows).
      exists (row :: rows). rewrite Hloop, <- app_assoc. split; [reflexivity |].
      now constructor.
Qed.

(** The first entry that is kept and does not convert aborts the loop with
    the error of the conversion. *)
Lemma records_loop_aborts (satellite : Satellite) (t : value) (rest : list value)
  (records : list record) (e : exn) :
  skipped t = false ->
  utcfromtimestamp t = Raise e ->
  records_loop satellite (t :: rest) records = Raise e.
Proof.
  intros Hs He. rewrite (records_loop_keep _ _ _ _ Hs). unfold sample.
  rewrite He. reflexivity.
Qed.

(** The script up to the loop, for a TLE record that holds the three keys:
    the lines go to the propagator as they are. *)
Lemma compute_pass_with_tle (data tle : list (string * value)) (line1 line2 name : value) :
  dict_get data "tle" VNone = VDict tle ->
  assoc "line1" tle = Some line1 ->
  assoc "line2" tle = Some line2 ->
  assoc "name" tle = Some name ->
  compute_pass data =
  (satellite <- EarthSatellite line1 line2 name ;;
   if negb (truthy (dict_get data "timestamps" VNone))
   then Raise (SystemExit "No timestamps found.")
   else (ts <- iterate (dict_get data "timestamps" VNone) ;; records_loop satellite ts [])).
Proof.
  intros Htle H1 H2 Hn. unfold compute_pass. cbv zeta. rewrite Htle.
  assert (Htruthy : truthy (VDict tle) = true).
  { destruct tle; [discriminate H1 | reflexivity]. }
  rewrite Htruthy. cbn [negb subscript]. rewrite H1, H2, Hn. reflexivity.
Qed.

(** An absent or empty TLE stops the script with [MissingTLE]. *)
Lemma compute_pass_without_tle (data : list (string * value)) :
  truthy (dict_get data "tle" VNone) = false ->
  compute_pass data = Raise MissingTLE.
Proof. intros H. unfold compute_pass. cbv zeta. rewrite H. reflexivity. Qed.

(** A TLE record without [line1] or without [line2] stops the script with
    the [KeyError] of the subscript. *)
Lemma compute_pass_without_line (data tle : list (string * value)) :
  dict_get data "tle" VNone = VDict tle ->
  tle <> [] ->
  assoc "line1" tle = None \/ assoc "line2" tle = None ->
  compute_pass data = Raise (KeyError "line1") \/
  compute_pass data = Raise (KeyError "line2").
Proof.
  intros Htle Hne Hmiss. unfold compute_pass. cbv zeta. rewrite Htle.
  assert (Htruthy : truthy (VDict tle) = true) by (destruct tle; [contradiction | reflexivity]).
  rewrite Htruthy. cbn [negb subscript].
  destruct (assoc "line1" tle) as [l1 |]; cbn [bind]; [| now left].
  destruct Hmiss as [H | H]; [discriminate H |]. rewrite H. now right.
Qed.

(** C2, as amended.  The loop of [compute_pass] visits the entries in input
    order and skips exactly those that are not an [int] or a [float] or are
    negative.  When every other entry is accepted by
    [datetime.utcfromtimestamp], the loop yields one row per kept entry, in
    the order of the kept entries: the number of rows is the length of the
    input minus the number of skipped entries, and there is no row when
    every entry is skipped.  These rows are what [compute_pass] returns for
    a non-empty series and a TLE record that the propagator accepts. *)
Theorem compute_pass_one_row_per_kept_entry (satellite : Satellite) (ts : list value) :
  Forall (fun t => skipped t = false -> exists dt, utcfromtimestamp t = Ok dt) ts ->
  exists rows,
    records_loop satellite ts [] = Ok rows /\
    List.length rows = (List.length ts - List.length (filter skipped ts))%nat /\
    Forall2 (fun t row => sample satellite t = Ok row)
            (filter (fun t => negb (skipped t)) ts) rows /\
    (forallb skipped ts = true -> rows = []) /\
    (forall (data tle : list (string * value)) (line1 line2 name : value),
        dict_get data "tle" VNone = VDict tle ->
        assoc "line1" tle = Some line1 ->
        assoc "line2" tle = Some line2 ->
        assoc "name" tle = Some name ->
        EarthSatellite line1 line2 name = Ok satellite ->
        dict_get data "timestamps" VNone = VList ts ->
        ts <> [] ->
        compute_pass data = Ok rows).
Proof.
  intros Hconv.
  destruct (records_loop_rows satellite ts Hconv []) as (rows & Hloop & Hrows).
  cbn [app] in Hloop.
  exists rows. split; [exact Hloop |]. split; [| split; [exact Hrows | split]].
  - rewrite <- (Forall2_length Hrows). apply filter_complement_length.
  - intros Hall.
    assert (Hnone : filter (fun t => negb (skipped t)) ts = []).
    { clear - Hall. induction ts as [| t ts IH]; [reflexivity |].
      cbn in Hall |- *. apply andb_true_iff in Hall as [Ht Hall].
      rewrite Ht. cbn. now apply IH. }
    rewrite Hnone in Hrows. now inversion Hrows.
  - intros data tle line1 line2 name Htle H1 H2 Hn Hsat Hts Hne.
    rewrite (compute_pass_with_tle _ _ _ _ _ Htle H1 H2 Hn), Hsat, Hts. cbn [bind].
    assert (Htruthy : truthy (VList ts) = true) by (destruct ts; [contradiction | reflexivity]).
    rewrite Htruthy. cbn [negb iterate bind]. exact Hloop.
Qed.

End WithCollaborators.

(** C2, the claim as stated fails.  A NaN timestamp is invalid for the
    specification, yet the guard of the loop keeps it and
    [datetime.utcfromtimestamp] raises: the call aborts instead of returning
    the empty sequence. *)
Lemma nan_sample_aborts_compute_pass :
  spec_InvalidTimestamp (VFloat PrimFloat.nan) = true /\
  skipped (VFloat PrimFloat.nan) = false /\
  compute_pass (collaborators := mock_collaborators) data_nan_sample
  = Raise (ValueError "Invalid value NaN (not a number)").
Proof. repeat split. Qed.

Lemma compute_pass_one_row_per_kept_entry_witness :
  (exists rows,
     compute_pass (collaborators := mock_collaborators) data_two_samples = Ok rows /\
     List.length rows = 1%nat) /\
  compute_pass (collaborators := mock_collaborators) data_all_invalid = Ok [].
Proof.
  split.
  - destruct (compute_pass_one_row_per_kept_entry
                (collaborators := mock_collaborators) tt [VInt (-5); VInt 962131820])
      as (rows & _ & Hlen & _ & _ & Hrun).
    + repeat constructor; intros _; eexists; reflexivity.
    + exists rows. split; [| exact Hlen].
      apply (Hrun data_two_samples
               [("name", VStr "SAT");
                ("line1", VStr "1 00005U 58002B   00179.78495062  .00000023  00000-0  28098-4 0  4753");
                ("line2", VStr "2 00005  34.2682 348.7242 1859667 331.7664  19.3264 10.82419157413667")]
               _ _ _ eq_refl eq_refl eq_refl eq_refl eq_refl eq_refl).
      discriminate.
  - destruct (compute_pass_one_row_per_kept_entry
                (collaborators := mock_collaborators) tt [VInt (-5); VStr "962131820"; VNone])
      as (rows & _ & _ & _ & Hall & Hrun).
    + repeat constructor; intros H; discriminate H.
    + rewrite <- (Hall eq_refl).
      apply (Hrun data_all_invalid
               [("name", VStr "SAT");
                ("line1", VStr "1 00005U 58002B   00179.78495062  .00000023  00000-0  28098-4 0  4753");
                ("line2", VStr "2 00005  34.2682 348.7242 1859667 331.7664  19.3264 10.82419157413667")]
               _ _ _ eq_refl eq_refl eq_refl eq_refl eq_refl eq_refl).
      discriminate.
Defined.

End PassDataFacts.

(** * Both engines: the missing TLE *)

Module EnginesFacts.

(** C8, as amended.  [compute_product_metrics] raises [MissingTLE], and
    returns no record, on every product that passes the earlier steps (the
    image width is read, the timestamps are a non-empty list whose first and
    last entries are numbers, [datetime] accepts their mean) and whose TLE
    is absent or lacks a non-empty [line1] or [line2].  [compute_pass]
    stops with [MissingTLE], before any row, when the TLE is absent or
    empty; when the TLE record is there without [line1] or [line2], it
    still stops before any row, with the [KeyError] of the lookup. *)
Theorem missing_tle_is_fatal :
  (forall (collaborators : Metrics.Collaborators) (product : list (string * pyval R))
          (w : Z) (t_first : pyval R) (rest : list (pyval R)) (x0 xN : R)
          (mid_dt : Metrics.DateTime),
      Metrics.read_image_width product = Ok w ->
      dict_get product "timestamps" (VList []) = VList (t_first :: rest) ->
      Metrics.as_real t_first = Some x0 ->
      Metrics.as_real (last rest t_first) = Some xN ->
      Metrics.datetime_fromtimestamp ((x0 + xN) / 2) = Ok mid_dt ->
      Metrics.tle_lines_missing product ->
      Metrics.compute_product_metrics product = Raise Metrics.MissingTLE) /\
  (forall (collaborators : PassData.Collaborators)
          (data : list (string * pyval PrimFloat.float)),
      PassData.truthy (dict_get data "tle" VNone) = false ->
      PassData.compute_pass data = Raise PassData.MissingTLE) /\
  (forall (collaborators : PassData.Collaborators)
          (data tle : list (string * pyval PrimFloat.float)),
      dict_get data "tle" VNone = VDict tle ->
      tle <> [] ->
      assoc "line1" tle = None \/ assoc "line2" tle = None ->
      PassData.compute_pass data = Raise (KeyError "line1") \/
      PassData.compute_pass data = Raise (KeyError "line2")).
Proof.
  split; [| split].
  - intros collaborators product w t_first rest x0 xN mid_dt.
    apply MetricsFacts.compute_product_metrics_without_tle.
  - intros collaborators data. apply PassDataFacts.compute_pass_without_tle.
  - intros collaborators data tle. apply PassDataFacts.compute_pass_without_line.
Qed.

(** C8, the claim as stated fails.  For a TLE record without [line1]
    [compute_pass] does not stop with [MissingTLE]: the lookup of the key
    raises [KeyError]. *)
Lemma missing_line1_is_a_key_error_in_compute_pass :
  assoc "line1"
    [("name", @VStr PrimFloat.float "SAT");
     ("line2", VStr "2 00005  34.2682 348.7242 1859667 331.7664  19.3264 10.82419157413667")]
  = None /\
  PassData.compute_pass (collaborators := PassData.mock_collaborators) PassData.data_no_line1
  = Raise (KeyError "line1") /\
  PassData.compute_pass (collaborators := PassData.mock_collaborators) PassData.data_no_line1
  <> Raise PassData.MissingTLE.
Proof. repeat split. discriminate. Qed.

(** An empty [line1] is not looked at by [compute_pass]: with a propagator
    that accepts it, a row is returned. *)
Lemma empty_line1_reaches_the_propagator :
  exists row,
    PassData.compute_pass (collaborators := PassData.mock_collaborators)
      PassData.data_empty_line1 = Ok [row].
Proof. eexists. reflexivity. Qed.

Lemma missing_tle_is_fatal_witness :
  Metrics.compute_product_metrics (collaborators := Metrics.mock_collaborators)
    [("timestamps", VList [VInt 962131820; VInt 962131910; VInt 962132000]);
     ("projection_cfg", Metrics.sample_cfg)]
  = Raise Metrics.MissingTLE /\
  PassData.compute_pass (collaborators := PassData.mock_collaborators)
    [("timestamps", VList [VInt 962131820])]
  = Raise PassData.MissingTLE /\
  (PassData.compute_pass (collaborators := PassData.mock_collaborators) PassData.data_no_line1
   = Raise (KeyError "line1") \/
   PassData.compute_pass (collaborators := PassData.mock_collaborators) PassData.data_no_line1
   = Raise (KeyError "line2")).
Proof.
  destruct missing_tle_is_fatal as (Hmetrics & Hpass & Hline).
  split; [| split].
  - apply (Hmetrics Metrics.mock_collaborators _ 1000%Z (VInt 962131820)
                    [VInt 962131910; VInt 962132000]
                    962131820%R 962132000%R ((962131820 + 962132000) / 2)%R); try reflexivity.
    exists []. split; [reflexivity | left; reflexivity].
  - apply (Hpass PassData.mock_collaborators). reflexivity.
  - apply (Hline PassData.mock_collaborators PassData.data_no_line1
                 [("name", VStr "SAT");
                  ("line2", VStr "2 00005  34.2682 348.7242 1859667 331.7664  19.3264 10.82419157413667")]).
    + reflexivity.
    + discriminate.
    + left. reflexivity.
Defined.

End EnginesFacts.

(** * Further facts about the footprint metrics engine *)

Module MetricsMore.

Import Metrics MetricsFacts MetricsSamples.
Local Open Scope R_scope.

(** ** The haversine helper on arbitrary arguments *)

(** The argument of the square root lies between 0 and 1 for all latitudes
    and longitudes, also outside their geographic ranges. *)
Lemma haversine_argument_unit_interval (lat1 lon1 lat2 lon2 : R) :
  0 <= hav (radians lat2 - radians lat1)
       + cos (radians lat1) * cos (radians lat2) * hav (radians lon2 - radians lon1)
    <= 1.
Proof.
  pose proof (hav_bounds (radians lat2 - radians lat1)) as [Hu0 Hu1].
  pose proof (hav_bounds (radians lon2 - radians lon1)) as [Hl0 Hl1].
  pose proof (cos_product_half_angles (radians lat1) (radians lat2)) as Hcos.
  pose proof (SIN_bound ((radians lat1 + radians lat2) / 2)) as [Hs0 Hs1].
  set (hu := hav (radians lat2 - radians lat1)) in *.
  set (hl := hav (radians lon2 - radians lon1)) in *.
  set (c := cos (radians lat1) * cos (radians lat2)) in *.
  set (sv := sin ((radians lat1 + radians lat2) / 2)) in *.
  assert (Hk : 0 <= 1 - sv ^ 2 <= 1) by (split; nra).
  replace (hu + c * hl) with (hu * (1 - hl) + (1 - sv ^ 2) * hl) by (rewrite <- Hcos; ring).
  split; nra.
Qed.

(** In exact arithmetic [haversine_km] always returns the great-circle
    distance of the specification. *)
Lemma haversine_km_value (lat1 lon1 lat2 lon2 : R) :
  haversine_km lat1 lon1 lat2 lon2 = Ok (spec_great_circle_km lat1 lon1 lat2 lon2).
Proof.
  pose proof (haversine_argument_unit_interval lat1 lon1 lat2 lon2) as [Ha0 Ha1].
  rewrite haversine_km_unfold. unfold spec_great_circle_km.
  set (a := hav (radians lat2 - radians lat1)
            + cos (radians lat1) * cos (radians lat2) * hav (radians lon2 - radians lon1)) in *.
  assert (Hs0 : 0 <= sqrt a) by apply sqrt_pos.
  assert (Hs1 : sqrt a <= 1) by (rewrite <- sqrt_1; now apply sqrt_le_1_alt).
  unfold math_sqrt. destruct (Rlt_dec a 0) as [H | _]; [lra |]. cbn [bind].
  unfold math_asin. destruct (Rlt_dec (sqrt a) (-1)) as [H | _]; [lra |].
  destruct (Rlt_dec 1 (sqrt a)) as [H | _]; [lra |]. cbn [bind].
  f_equal. ring.
Qed.

(** The great-circle distance lies between 0 and half the circumference. *)
Lemma spec_great_circle_km_bounds (lat1 lon1 lat2 lon2 : R) :
  0 <= spec_great_circle_km lat1 lon1 lat2 lon2 <= 6371 * PI.
Proof.
  pose proof (haversine_argument_unit_interval lat1 lon1 lat2 lon2) as [Ha0 Ha1].
  unfold spec_great_circle_km.
  set (a := hav (radians lat2 - radians lat1)
            + cos (radians lat1) * cos (radians lat2) * hav (radians lon2 - radians lon1)) in *.
  assert (Hs0 : 0 <= sqrt a) by apply sqrt_pos.
  assert (Hs1 : sqrt a <= 1) by (rewrite <- sqrt_1; now apply sqrt_le_1_alt).
  pose proof (asin_nonneg (sqrt a) (conj Hs0 Hs1)) as Hn.
  pose proof (asin_bound (sqrt a)) as [_ Hhi].
  split; nra.
Qed.


Lemma hav_full_turn (theta : R) : hav (theta + 2 * PI) = hav theta.
Proof.
  unfold hav. replace ((theta + 2 * PI) / 2) with (theta / 2 + PI) by field.
  rewrite neg_sin. ring.
Qed.

Lemma hav_turns_nat (theta : R) (k : nat) : hav (theta + 2 * PI * INR k) = hav theta.
Proof.
  induction k as [| k IH].
  - cbn [INR]. f_equal. ring.
  - rewrite S_INR.
    replace (theta + 2 * PI * (INR k + 1)) with (theta + 2 * PI * INR k + 2 * PI) by ring.
    now rewrite hav_full_turn.
Qed.

Lemma hav_turns (theta : R) (k : Z) : hav (theta + 2 * PI * IZR k) = hav theta.
Proof.
  destruct (Z_le_gt_dec 0 k) as [Hk | Hk].
  - rewrite <- (Z2Nat.id k Hk), <- INR_IZR_INZ. apply hav_turns_nat.
  - rewrite <- (hav_turns_nat (theta + 2 * PI * IZR k) (Z.to_nat (- k))).
    f_equal. rewrite INR_IZR_INZ, Z2Nat.id by lia. rewrite opp_IZR. ring.
Qed.

(** X4.  The distance depends on the longitudes only through their
    difference taken modulo 360 degrees: adding whole turns to a longitude,
    or the same angle to both longitudes, does not change the result. *)
Theorem haversine_km_longitude_wrap (lat1 lon1 lat2 lon2 shift : R) (turns : Z) :
  haversine_km lat1 lon1 lat2 (lon2 + 360 * IZR turns) = haversine_km lat1 lon1 lat2 lon2 /\
  haversine_km lat1 (lon1 + 360 * IZR turns) lat2 lon2 = haversine_km lat1 lon1 lat2 lon2 /\
  haversine_km lat1 (lon1 + shift) lat2 (lon2 + shift) = haversine_km lat1 lon1 lat2 lon2.
Proof.
  rewrite !haversine_km_unfold.
  assert (Hturn : radians (360 * IZR turns) = 2 * PI * IZR turns)
    by (unfold radians; field).
  split; [| split].
  - replace (radians (lon2 + 360 * IZR turns) - radians lon1)
      with (radians lon2 - radians lon1 + 2 * PI * IZR turns)
      by (rewrite <- Hturn; unfold radians; ring).
    now rewrite hav_turns.
  - replace (radians lon2 - radians (lon1 + 360 * IZR turns))
      with (radians lon2 - radians lon1 + 2 * PI * IZR (- turns))
      by (rewrite opp_IZR; unfold radians; field).
    now rewrite hav_turns.
  - replace (radians (lon2 + shift) - radians (lon1 + shift))
      with (radians lon2 - radians lon1) by (unfold radians; ring).
    reflexivity.
Qed.

(** ** Every outcome of a run on a well-shaped product *)

Section WithCollaborators.

Context {collaborators : Collaborators}.

(** The run up to the scan angle, and the four ways it can end. *)
Lemma compute_product_metrics_outcome
  (product cfg tle : list (string * value)) (w : Z) (t_first : value)
  (rest : list value) (x0 xN : R) (mid_dt dt0 dtN : DateTime) (sat : Satellite) :
  dict_get product "projection_cfg" (VDict []) = VDict cfg ->
  py_int (dict_get cfg "image_width" VNone) = Ok w ->
  dict_get product "timestamps" (VList []) = VList (t_first :: rest) ->
  as_real t_first = Some x0 ->
  as_real (last rest t_first) = Some xN ->
  datetime_fromtimestamp ((x0 + xN) / 2) = Ok mid_dt ->
  datetime_fromtimestamp x0 = Ok dt0 ->
  datetime_fromtimestamp xN = Ok dtN ->
  dict_get product "tle" (VDict []) = VDict tle ->
  truthy (dict_get tle "line1" VNone) = true ->
  truthy (dict_get tle "line2" VNone) = true ->
  EarthSatellite (dict_get tle "line1" VNone) (dict_get tle "line2" VNone)
                 (dict_get tle "name" (VStr "sat")) = Ok sat ->
  (as_real (dict_get cfg "scan_angle" (VFloat 0)) = None ->
   compute_product_metrics product = Raise (TypeError "unsupported operand type(s) for /")) /\
  (forall s, as_real (dict_get cfg "scan_angle" (VFloat 0)) = Some s ->
     (s <> 0 ->
      2 * elevation_km (subpoint_at sat (ts_utc mid_dt)) * tan (radians (s / 2)) <> 0 ->
      w = 0%Z ->
      compute_product_metrics product = Raise (ZeroDivisionError "float division by zero")) /\
     (s = 0 \/
      2 * elevation_km (subpoint_at sat (ts_utc mid_dt)) * tan (radians (s / 2)) = 0 \/
      w <> 0%Z ->
      exists m, compute_product_metrics product = Ok m)).
Proof.
  intros Hcfg Hw Hts Hx0 HxN Hmid Hdt0 HdtN Htle Hl1 Hl2 Hsat.
  assert (HgetN : py_getitem (VList (t_first :: rest)) (-1) = Ok (last rest t_first)).
  { apply py_getitem_last. split; [discriminate |]. apply last_cons_default. }
  destruct (py_add_numbers _ _ _ _ Hx0 HxN) as (v & x & Hadd & Hv & ->).
  assert (Hmid' : datetime_fromtimestamp (1 / 2 * (x0 + xN)) = Ok mid_dt).
  { replace (1 / 2 * (x0 + xN)) with ((x0 + xN) / 2) by field. exact Hmid. }
  pose proof (haversine_km_value
                (latitude_degrees (subpoint_at sat (ts_utc dt0)))
                (longitude_degrees (subpoint_at sat (ts_utc dt0)))
                (latitude_degrees (subpoint_at sat (ts_utc dtN)))
                (longitude_degrees (subpoint_at sat (ts_utc dtN)))) as Hhav.
  assert (Hlen : (Z.of_nat (List.length (t_first :: rest)) =? 0)%Z = false)
    by (apply Z.eqb_neq; cbn [List.length]; lia).
  unfold compute_product_metrics. cbv zeta.
  rewrite Hcfg, Htle, Hts. cbn [method_get bind]. rewrite Hw. cbn [bind py_len].
  rewrite Hlen.
  replace (py_getitem (VList (t_first :: rest)) 0) with (Ok t_first) by reflexivity.
  rewrite HgetN. cbn [bind]. rewrite Hadd. cbn [bind].
  unfold float_mul. rewrite Hv. cbn [bind].
  unfold to_sf_time, fromtimestamp. cbn [as_real]. rewrite Hmid'. cbn [bind].
  rewrite Hl1, Hl2. cbn [negb orb]. rewrite Hsat. cbn [bind].
  rewrite Hx0, HxN, Hdt0, HdtN. cbn [bind]. rewrite Hhav. cbn [bind].
  unfold float_div_int at 1. rewrite Hlen. cbn [bind].
  unfold div_float.
  split.
  - intros Hnone. rewrite Hnone. reflexivity.
  - intros s Hs. rewrite Hs. cbn [bind]. rewrite (truthy_as_real _ _ Hs).
    set (swath := 2 * elevation_km (subpoint_at sat (ts_utc mid_dt)) * tan (radians (s / 2))).
    split.
    + intros Hs0 Hsw ->.
      rewrite (nonzero_true _ Hs0), (nonzero_true _ Hsw). reflexivity.
    + intros Hcase. destruct (nonzero s) eqn:Es; [| eexists; reflexivity].
      destruct (nonzero swath) eqn:Esw; [| eexists; reflexivity].
      apply nonzero_true_iff in Es, Esw.
      destruct Hcase as [H | [H | H]]; try contradiction.
      unfold float_div_int. apply Z.eqb_neq in H. rewrite H. cbn [bind].
      eexists; reflexivity.
Qed.





(** X7.  Only the first and the last timestamp are read, and the number of
    timestamps: two products that differ in the interior entries of
    [timestamps] alone, with as many of them, give the same result, record
    or error. *)
Theorem interior_timestamps_are_not_read
  (others : list (string * value)) (t_first t_last : value) (mid1 mid2 : list value) :
  List.length mid1 = List.length mid2 ->
  compute_product_metrics (("timestamps", VList (t_first :: mid1 ++ [t_last])%list) :: others)
  = compute_product_metrics (("timestamps", VList (t_first :: mid2 ++ [t_last])%list) :: others).
Proof.
  intros Hlen.
  assert (Hget : forall mid : list value,
             py_getitem (VList (t_first :: mid ++ [t_last])%list) (-1) = Ok t_last).
  { intros mid. apply py_getitem_last. split; [discriminate |].
    rewrite last_cons_default. apply last_last. }
  assert (Hcount : forall mid : list value,
             List.length (t_first :: mid ++ [t_last])%list = S (List.length mid + 1)).
  { intros mid. cbn [List.length]. now rewrite length_app. }
  unfold compute_product_metrics. cbv zeta.
  change (dict_get (("timestamps", VList (t_first :: mid1 ++ [t_last])%list) :: others)
                   "projection_cfg" (VDict []))
    with (dict_get others "projection_cfg" (VDict [])).
  change (dict_get (("timestamps", VList (t_first :: mid2 ++ [t_last])%list) :: others)
                   "projection_cfg" (VDict []))
    with (dict_get others "projection_cfg" (VDict [])).
  change (dict_get (("timestamps", VList (t_first :: mid1 ++ [t_last])%list) :: others)
                   "tle" (VDict []))
    with (dict_get others "tle" (VDict [])).
  change (dict_get (("timestamps", VList (t_first :: mid2 ++ [t_last])%list) :: others)
                   "tle" (VDict []))
    with (dict_get others "tle" (VDict [])).
  change (dict_get (("timestamps", VList (t_first :: mid1 ++ [t_last])%list) :: others)
                   "timestamps" (VList []))
    with (VList (t_first :: mid1 ++ [t_last])%list : value).
  change (dict_get (("timestamps", VList (t_first :: mid2 ++ [t_last])%list) :: others)
                   "timestamps" (VList []))
    with (VList (t_first :: mid2 ++ [t_last])%list : value).
  cbn [py_len]. rewrite !Hget, !Hcount, Hlen.
  replace (py_getitem (VList (t_first :: mid1 ++ [t_last])%list) 0) with (Ok t_first)
    by reflexivity.
  replace (py_getitem (VList (t_first :: mid2 ++ [t_last])%list) 0) with (Ok t_first)
    by reflexivity.
  reflexivity.
Qed.

(** X8.  For a single timestamp the mid time is that timestamp: the record
    has the same latitude and longitude in [mid_subpoint], [first_subpoint]
    and [last_subpoint]. *)
Theorem single_timestamp_subpoints_coincide
  (product : list (string * value)) (t : value) (m : metrics) :
  dict_get product "timestamps" (VList []) = VList [t] ->
  compute_product_metrics product = Ok m ->
  first_subpoint m = last_subpoint m /\
  lat_deg (mid_subpoint m) = end_lat_deg (first_subpoint m) /\
  lon_deg (mid_subpoint m) = end_lon_deg (first_subpoint m).
Proof.
  intros Hts Hm.
  destruct (compute_product_metrics_inv _ _ Hm)
    as (cfg & w & h & t0 & tN & x0 & xN & mid_dt & tle & sat & dt0 & dtN & along & s
        & _ & _ & _ & _ & H0 & HN & Hx0 & HxN & Hmid & _ & _ & _ & _ & Hdt0 & HdtN
        & _ & _ & _ & ->).
  rewrite Hts in H0, HN. cbn in H0, HN. injection H0 as <-. injection HN as <-.
  rewrite Hx0 in HxN. injection HxN as <-.
  rewrite Hdt0 in HdtN. injection HdtN as <-.
  replace (1 / 2 * (x0 + x0)) with x0 in Hmid by field.
  rewrite Hdt0 in Hmid. injection Hmid as <-.
  cbn. auto.
Qed.

Lemma py_add_not_numbers (a b : value) :
  as_real a = None \/ as_real b = None ->
  (exists msg, py_add a b = Raise (TypeError msg)) \/
  (exists v, py_add a b = Ok v /\ as_real v = None).
Proof.
  destruct a as [| p | z | x | sa | la | da], b as [| q | z' | x' | sb | lb | db];
    cbn; intros [H | H]; try discriminate H;
    solve [left; eexists; reflexivity | right; eexists; split; reflexivity].
Qed.

(** X9.  The first and the last timestamp must be numbers: when one of them
    is not (a string, a null, a list, ...), the call raises [TypeError] as
    soon as the image width is read, before the TLE is looked at. *)
Theorem non_numeric_end_timestamp_is_a_type_error
  (product : list (string * value)) (w : Z) (t_first : value) (rest : list value) :
  read_image_width product = Ok w ->
  dict_get product "timestamps" (VList []) = VList (t_first :: rest) ->
  as_real t_first = None \/ as_real (last rest t_first) = None ->
  exists msg, compute_product_metrics product = Raise (TypeError msg).
Proof.
  intros Hw Hts Hbad.
  assert (HgetN : py_getitem (VList (t_first :: rest)) (-1) = Ok (last rest t_first)).
  { apply py_getitem_last. split; [discriminate |]. apply last_cons_default. }
  unfold read_image_width in Hw. cbv zeta in Hw.
  unfold compute_product_metrics. cbv zeta.
  destruct (method_get _ "image_width" VNone) as [width_v |]; cbn [bind] in Hw |- *;
    [| discriminate Hw].
  rewrite Hw, Hts. cbn [bind py_len].
  replace (Z.of_nat (List.length (t_first :: rest)) =? 0)%Z with false
    by (symmetry; apply Z.eqb_neq; cbn [List.length]; lia).
  replace (py_getitem (VList (t_first :: rest)) 0) with (Ok t_first) by reflexivity.
  rewrite HgetN. cbn [bind].
  destruct (py_add_not_numbers _ _ Hbad) as [[msg Hadd] | (v & Hadd & Hv)];
    rewrite Hadd; cbn [bind].
  - eexists. reflexivity.
  - unfold float_mul. rewrite Hv. cbn [bind]. eexists. reflexivity.
Qed.

(** X10.  A [projection_cfg] that is present but is not a dict raises
    [AttributeError] at once; a [tle] that is present but is not a dict (a
    null, say) raises [AttributeError], not [MissingTLE], once the image
    width and the mid time are computed. *)
Theorem non_dict_sections_are_attribute_errors (product : list (string * value)) :
  (forall v, dict_get product "projection_cfg" (VDict []) = v ->
     (forall items, v <> VDict items) ->
     compute_product_metrics product = Raise (AttributeError "get")) /\
  (forall v w t_first rest x0 xN mid_dt,
     read_image_width product = Ok w ->
     dict_get product "timestamps" (VList []) = VList (t_first :: rest) ->
     as_real t_first = Some x0 ->
     as_real (last rest t_first) = Some xN ->
     datetime_fromtimestamp ((x0 + xN) / 2) = Ok mid_dt ->
     dict_get product "tle" (VDict []) = v ->
     (forall items, v <> VDict items) ->
     compute_product_metrics product = Raise (AttributeError "get")).
Proof.
  assert (Hget : forall (v : value) k d,
             (forall items, v <> VDict items) -> method_get v k d = Raise (AttributeError "get")).
  { intros v k d Hv. destruct v; try reflexivity. exfalso. now apply (Hv d0). }
  split.
  - intros v Hcfg Hv. unfold compute_product_metrics. cbv zeta.
    rewrite Hcfg, (Hget v _ _ Hv). reflexivity.
  - intros v w t_first rest x0 xN mid_dt Hw Hts Hx0 HxN Hmid Htle Hv.
    assert (HgetN : py_getitem (VList (t_first :: rest)) (-1) = Ok (last rest t_first)).
    { apply py_getitem_last. split; [discriminate |]. apply last_cons_default. }
    destruct (py_add_numbers _ _ _ _ Hx0 HxN) as (sum & x & Hadd & Hsum & ->).
    assert (Hmid' : datetime_fromtimestamp (1 / 2 * (x0 + xN)) = Ok mid_dt).
    { replace (1 / 2 * (x0 + xN)) with ((x0 + xN) / 2) by field. exact Hmid. }
    unfold read_image_width in Hw. cbv zeta in Hw.
    unfold compute_product_metrics. cbv zeta.
    destruct (method_get _ "image_width" VNone) as [width_v |]; cbn [bind] in Hw |- *;
      [| discriminate Hw].
    rewrite Hw, Hts, Htle. cbn [bind py_len].
    replace (Z.of_nat (List.length (t_first :: rest)) =? 0)%Z with false
      by (symmetry; apply Z.eqb_neq; cbn [List.length]; lia).
    replace (py_getitem (VList (t_first :: rest)) 0) with (Ok t_first) by reflexivity.
    rewrite HgetN. cbn [bind]. rewrite Hadd. cbn [bind].
    unfold float_mul. rewrite Hsum. cbn [bind].
    unfold fromtimestamp. cbn [as_real]. rewrite Hmid'. cbn [bind].
    rewrite (Hget v _ _ Hv). reflexivity.
Qed.

(** X11.  A [scan_angle] that is present but is not a number (a null, a
    string) raises [TypeError] at the division by 2.0, after the propagator
    has been queried for the three subpoints; the default 0.0 applies only
    when the key is absent. *)
Theorem non_numeric_scan_angle_is_a_type_error
  (product cfg tle : list (string * value)) (w : Z) (t_first : value)
  (rest : list value) (x0 xN : R) (mid_dt dt0 dtN : DateTime) (sat : Satellite)
  (scan : value) :
  dict_get product "projection_cfg" (VDict []) = VDict cfg ->
  py_int (dict_get cfg "image_width" VNone) = Ok w ->
  assoc "scan_angle" cfg = Some scan ->
  as_real scan = None ->
  dict_get product "timestamps" (VList []) = VList (t_first :: rest) ->
  as_real t_first = Some x0 ->
  as_real (last rest t_first) = Some xN ->
  datetime_fromtimestamp ((x0 + xN) / 2) = Ok mid_dt ->
  datetime_fromtimestamp x0 = Ok dt0 ->
  datetime_fromtimestamp xN = Ok dtN ->
  dict_get product "tle" (VDict []) = VDict tle ->
  truthy (dict_get tle "line1" VNone) = true ->
  truthy (dict_get tle "line2" VNone) = true ->
  EarthSatellite (dict_get tle "line1" VNone) (dict_get tle "line2" VNone)
                 (dict_get tle "name" (VStr "sat")) = Ok sat ->
  compute_product_metrics product = Raise (TypeError "unsupported operand type(s) for /").
Proof.
  intros Hcfg Hw Hscan Hnone Hts Hx0 HxN Hmid Hdt0 HdtN Htle Hl1 Hl2 Hsat.
  destruct (compute_product_metrics_outcome product cfg tle w t_first rest x0 xN
              mid_dt dt0 dtN sat Hcfg Hw Hts Hx0 HxN Hmid Hdt0 HdtN Htle Hl1 Hl2 Hsat)
    as [Hbad _].
  apply Hbad. unfold dict_get. now rewrite Hscan.
Qed.

(** X20.  The scan angle is not validated.  For a scan angle strictly
    between -180 and 180 degrees, not zero, and a satellite above the
    ground, the swath is returned with the sign of the scan angle, and so
    is the total area when it is returned: a negative scan angle gives a
    negative swath and a negative area, without an error. *)
Theorem swath_has_the_sign_of_the_scan_angle
  (product : list (string * value)) (cfg : list (string * value)) (m : metrics)
  (scan : R) :
  compute_product_metrics product = Ok m ->
  dict_get product "projection_cfg" (VDict []) = VDict cfg ->
  as_real (dict_get cfg "scan_angle" (VFloat 0)) = Some scan ->
  -180 < scan < 180 ->
  scan <> 0 ->
  0 < alt_km (mid_subpoint m) ->
  exists swath,
    across_track_swath_km m = Some swath /\
    0 < swath * scan /\
    fov_deg m = Some scan /\
    (forall area, total_ground_area_km2 m = Some area -> 0 < area * scan).
Proof.
  intros Hm Hcfg Hscan Hrange Hs0 Halt.
  destruct (compute_product_metrics_inv _ _ Hm)
    as (cfg' & w & h & t0 & tN & x0 & xN & mid_dt & tle & sat & dt0 & dtN & along & s
        & Hcfg' & _ & _ & _ & _ & _ & _ & _ & _ & _ & _ & _ & _ & _ & _ & Hhav & Hs & _ & ->).
  rewrite Hcfg in Hcfg'. injection Hcfg' as <-.
  rewrite Hscan in Hs. injection Hs as <-.
  rewrite haversine_km_value in Hhav. injection Hhav as Halong.
  pose proof (spec_great_circle_km_bounds
                (latitude_degrees (subpoint_at sat (ts_utc dt0)))
                (longitude_degrees (subpoint_at sat (ts_utc dt0)))
                (latitude_degrees (subpoint_at sat (ts_utc dtN)))
                (longitude_degrees (subpoint_at sat (ts_utc dtN)))) as [Hal0 _].
  rewrite Halong in Hal0. clear Halong.
  cbn in Halt |- *.
  set (alt := elevation_km (subpoint_at sat (ts_utc mid_dt))) in *.
  pose proof PI_RGT_0 as Hpi.
  assert (Htan : 0 < tan (radians (scan / 2)) * scan).
  { unfold radians. destruct (Rlt_dec 0 scan) as [Hpos | Hneg].
    - assert (0 < tan (scan / 2 * (PI / 180))) by (apply tan_gt_0; nra). nra.
    - assert (tan (scan / 2 * (PI / 180)) < 0) by (apply tan_lt_0; nra). nra. }
  set (tn := tan (radians (scan / 2))) in *.
  assert (Hsw : 0 < 2 * alt * tn * scan) by nra.
  assert (Hsw0 : 2 * alt * tn <> 0) by (intros Hz; rewrite Hz in Hsw; lra).
  rewrite (nonzero_true _ Hs0), (float_or_None_nonzero _ Hsw0).
  exists (2 * alt * tn). split; [reflexivity |]. split; [exact Hsw |].
  split.
  - reflexivity.
  - intros area Harea. apply float_or_None_Some in Harea as [Heq Hne].
    injection Heq as <-.
    assert (Hal1 : along <> 0) by (intros Hz; apply Hne; rewrite Hz; ring).
    assert (0 < along) by lra. nra.
Qed.

End WithCollaborators.

(** ** Witnesses *)



Lemma interior_timestamps_witness :
  compute_product_metrics (collaborators := mock_collaborators) product_bad_interior
  = compute_product_metrics (collaborators := mock_collaborators) product_good_interior /\
  exists m,
    compute_product_metrics (collaborators := mock_collaborators) product_bad_interior = Ok m.
Proof.
  assert (Heq : compute_product_metrics (collaborators := mock_collaborators)
                  product_bad_interior
                = compute_product_metrics (collaborators := mock_collaborators)
                    product_good_interior).
  { exact (interior_timestamps_are_not_read (collaborators := mock_collaborators)
             [("tle", sample_tle); ("projection_cfg", sample_cfg)]
             (VInt 962131820) (VInt 962132000)
             [VStr "not a number"] [VInt 962131910] eq_refl). }
  split; [exact Heq |]. rewrite Heq.
  apply (compute_product_metrics_returns (collaborators := mock_collaborators)
           product_good_interior
           [("image_width", VInt 1000); ("scan_angle", VFloat 2)] sample_tle_items
           1000 (VInt 962131820) [VInt 962131910; VInt 962132000] 962131820 962132000 2
           ((962131820 + 962132000) / 2) 962131820 962132000 tt);
    [reflexivity | reflexivity | lia | reflexivity | reflexivity | reflexivity
     | reflexivity | reflexivity | reflexivity | reflexivity | reflexivity
     | reflexivity | reflexivity | reflexivity | cbn; intros; lra].
Defined.

Lemma single_timestamp_subpoints_witness :
  exists m,
    compute_product_metrics (collaborators := mock_collaborators) product_single_line = Ok m /\
    first_subpoint m = last_subpoint m /\
    lat_deg (mid_subpoint m) = end_lat_deg (first_subpoint m) /\
    lon_deg (mid_subpoint m) = end_lon_deg (first_subpoint m).
Proof.
  destruct mock_single_line_run as (m & Hm & _).
  exists m. split; [exact Hm |].
  exact (single_timestamp_subpoints_coincide (collaborators := mock_collaborators)
           product_single_line (VInt 962131820) m eq_refl Hm).
Defined.

Lemma non_numeric_end_timestamp_witness :
  exists msg,
    compute_product_metrics (collaborators := mock_collaborators) product_bad_first
    = Raise (TypeError msg).
Proof.
  apply (non_numeric_end_timestamp_is_a_type_error (collaborators := mock_collaborators)
           product_bad_first 1000%Z (VStr "962131820") [VInt 962131910; VInt 962132000]
           eq_refl eq_refl).
  left. reflexivity.
Defined.

Lemma non_dict_sections_witness :
  compute_product_metrics (collaborators := mock_collaborators) [("projection_cfg", VNone)]
    = Raise (AttributeError "get") /\
  compute_product_metrics (collaborators := mock_collaborators) product_null_tle
    = Raise (AttributeError "get").
Proof.
  split.
  - apply (proj1 (non_dict_sections_are_attribute_errors
                    (collaborators := mock_collaborators) [("projection_cfg", VNone)])
                 VNone eq_refl).
    discriminate.
  - apply (proj2 (non_dict_sections_are_attribute_errors
                    (collaborators := mock_collaborators) product_null_tle)
                 VNone 1000%Z (VInt 962131820) [VInt 962131910; VInt 962132000]
                 962131820 962132000 ((962131820 + 962132000) / 2)
                 eq_refl eq_refl eq_refl eq_refl eq_refl eq_refl).
    discriminate.
Defined.

Lemma non_numeric_scan_angle_witness :
  compute_product_metrics (collaborators := mock_collaborators) product_null_scan
  = Raise (TypeError "unsupported operand type(s) for /").
Proof.
  exact (non_numeric_scan_angle_is_a_type_error (collaborators := mock_collaborators)
           product_null_scan
           [("image_width", VInt 1000); ("scan_angle", VNone)] sample_tle_items
           1000 (VInt 962131820) [VInt 962131910; VInt 962132000] 962131820 962132000
           ((962131820 + 962132000) / 2) 962131820 962132000 tt VNone
           eq_refl eq_refl eq_refl eq_refl eq_refl eq_refl eq_refl eq_refl eq_refl eq_refl
           eq_refl eq_refl eq_refl eq_refl).
Defined.

Lemma swath_sign_witness :
  exists m swath,
    compute_product_metrics (collaborators := mock_collaborators) product_three_lines = Ok m /\
    across_track_swath_km m = Some swath /\
    0 < swath * 2.
Proof.
  destruct mock_three_lines_run as (m & Hm & _ & _ & Halt & _).
  assert (Hrange : -180 < 2 < 180) by lra.
  assert (H2 : (2 : R) <> 0) by lra.
  assert (Hpos : 0 < alt_km (mid_subpoint m)) by (rewrite Halt; lra).
  destruct (swath_has_the_sign_of_the_scan_angle
              (collaborators := mock_collaborators) product_three_lines
              [("image_width", VInt 1000); ("scan_angle", VFloat 2)] m 2
              Hm eq_refl eq_refl Hrange H2 Hpos)
    as (swath & Hswath & Hsign & _).
  exists m, swath. auto.
Defined.

End MetricsMore.

(** * Further facts about the pass geometry engine *)

Module PassDataMore.

Import PassData PassDataFacts PassDataSamples.

Section WithCollaborators.

Context {collaborators : Collaborators}.

(** The rows gathered so far are kept in front of the rows of the loop. *)
Lemma records_loop_accumulates (satellite : Satellite) (ts : list value)
  (records : list record) :
  records_loop satellite ts records
  = (rows <- records_loop satellite ts [] ;; Ok (records ++ rows)%list).
Proof.
  revert records. induction ts as [| t rest IH]; intros records.
  - cbn. now rewrite app_nil_r.
  - destruct (skipped t) eqn:Es.
    + rewrite !(records_loop_skip _ _ _ _ Es). apply IH.
    + rewrite !(records_loop_keep _ _ _ _ Es).
      destruct (sample satellite t) as [row | e]; cbn [bind]; [| reflexivity].
      rewrite (IH (records ++ [row])%list), (IH ([] ++ [row])%list).
      destruct (records_loop satellite rest []) as [rows | e]; cbn [bind]; [| reflexivity].
      now rewrite <- app_assoc.
Qed.

(** The loop over two series in a row, with the rows handed over. *)
Lemma records_loop_app (satellite : Satellite) (ts1 ts2 : list value)
  (records : list record) :
  records_loop satellite (ts1 ++ ts2)%list records
  = (rows <- records_loop satellite ts1 records ;; records_loop satellite ts2 rows).
Proof.
  revert records. induction ts1 as [| t rest IH]; intros records.
  - reflexivity.
  - change ((t :: rest) ++ ts2)%list with (t :: (rest ++ ts2))%list.
    destruct (skipped t) eqn:Es.
    + rewrite !(records_loop_skip _ _ _ _ Es). apply IH.
    + rewrite !(records_loop_keep _ _ _ _ Es).
      destruct (sample satellite t) as [row | e]; cbn [bind]; [| reflexivity].
      apply IH.
Qed.

(** X12.  A series can be processed in two batches: the loop over
    [ts1 ++ ts2] returns the rows of [ts1] followed by the rows of [ts2],
    and fails with the error of the first batch that fails. *)
Theorem records_loop_in_two_batches (satellite : Satellite) (ts1 ts2 : list value) :
  records_loop satellite (ts1 ++ ts2)%list []
  = (rows1 <- records_loop satellite ts1 [] ;;
     rows2 <- records_loop satellite ts2 [] ;;
     Ok (rows1 ++ rows2)%list).
Proof.
  rewrite records_loop_app.
  destruct (records_loop satellite ts1 []) as [rows1 | e]; cbn [bind]; [| reflexivity].
  apply records_loop_accumulates.
Qed.

(** A kept entry that [datetime] rejects, anywhere in the series, makes the
    loop fail. *)
Lemma records_loop_bad_entry (satellite : Satellite) (ts : list value) (t : value)
  (e0 : exn) :
  In t ts -> skipped t = false -> utcfromtimestamp t = Raise e0 ->
  forall records, exists e, records_loop satellite ts records = Raise e.
Proof.
  intros Hin Hkept Hbad. induction ts as [| t' rest IH]; intros records; [contradiction |].
  destruct (skipped t') eqn:Es.
  - rewrite (records_loop_skip _ _ _ _ Es). apply IH.
    destruct Hin as [-> | Hin]; [congruence | exact Hin].
  - rewrite (records_loop_keep _ _ _ _ Es).
    destruct (sample satellite t') as [row | e] eqn:Hrow; cbn [bind]; [| eauto].
    apply IH. destruct Hin as [-> | Hin]; [| exact Hin].
    exfalso. unfold sample in Hrow. rewrite Hbad in Hrow. discriminate Hrow.
Qed.

(** X13.  The loop returns rows exactly when every entry that the guard
    keeps is accepted by [datetime.utcfromtimestamp]; otherwise the whole
    call fails and the rows gathered so far are lost. *)
Theorem records_loop_returns_iff_kept_entries_convert
  (satellite : Satellite) (ts : list value) (records : list record) :
  (exists rows, records_loop satellite ts records = Ok rows) <->
  Forall (fun t => skipped t = false -> exists dt, utcfromtimestamp t = Ok dt) ts.
Proof.
  split.
  - intros [rows Hrows]. apply Forall_forall. intros t Hin Hkept.
    destruct (utcfromtimestamp t) as [dt | e0] eqn:Hutc; [eauto |].
    destruct (records_loop_bad_entry satellite ts t e0 Hin Hkept Hutc records) as [e He].
    rewrite He in Hrows. discriminate Hrows.
  - intros Hall. destruct (records_loop_rows satellite ts Hall records) as (rows & Hloop & _).
    eauto.
Qed.

(** X14.  A NaN or a positive infinity among the timestamps is not skipped
    and is not accepted: [compute_pass] fails, whatever the other entries
    and the collaborators. *)
Theorem nan_or_infinity_aborts_compute_pass
  (data tle : list (string * value)) (line1 line2 name : value) (ts : list value) :
  dict_get data "tle" VNone = VDict tle ->
  assoc "line1" tle = Some line1 ->
  assoc "line2" tle = Some line2 ->
  assoc "name" tle = Some name ->
  dict_get data "timestamps" VNone = VList ts ->
  In (VFloat PrimFloat.nan) ts \/ In (VFloat PrimFloat.infinity) ts ->
  exists e, compute_pass data = Raise e.
Proof.
  intros Htle H1 H2 Hn Hts Hin.
  rewrite (compute_pass_with_tle _ _ _ _ _ Htle H1 H2 Hn), Hts.
  destruct (EarthSatellite line1 line2 name) as [satellite | e]; cbn [bind]; [| eauto].
  assert (Htruthy : truthy (VList ts) = true).
  { destruct ts; [destruct Hin; contradiction | reflexivity]. }
  rewrite Htruthy. cbn [negb iterate bind].
  destruct Hin as [Hin | Hin].
  - apply (records_loop_bad_entry satellite ts (VFloat PrimFloat.nan)
             (ValueError "Invalid value NaN (not a number)") Hin); reflexivity.
  - apply (records_loop_bad_entry satellite ts (VFloat PrimFloat.infinity)
             (OverflowError "timestamp out of range for platform time_t") Hin); reflexivity.
Qed.

(** X15.  The script checks in this order: the propagator is given the TLE
    before the timestamps are read, so its error is raised also when the
    timestamps are missing; with an accepted TLE, timestamps that are
    missing, null or empty stop the script with "No timestamps found.". *)
Theorem compute_pass_checks_tle_before_timestamps
  (data tle : list (string * value)) (line1 line2 name : value) :
  dict_get data "tle" VNone = VDict tle ->
  assoc "line1" tle = Some line1 ->
  assoc "line2" tle = Some line2 ->
  assoc "name" tle = Some name ->
  (forall e, EarthSatellite line1 line2 name = Raise e -> compute_pass data = Raise e) /\
  (forall satellite, EarthSatellite line1 line2 name = Ok satellite ->
     truthy (dict_get data "timestamps" VNone) = false ->
     compute_pass data = Raise (SystemExit "No timestamps found.")).
Proof.
  intros Htle H1 H2 Hn.
  rewrite (compute_pass_with_tle _ _ _ _ _ Htle H1 H2 Hn). split.
  - intros e He. rewrite He. reflexivity.
  - intros satellite Hsat Hfalse. rewrite Hsat, Hfalse. reflexivity.
Qed.

Lemma records_loop_all_skipped (satellite : Satellite) (ts : list value)
  (records : list record) :
  Forall (fun t => skipped t = true) ts ->
  records_loop satellite ts records = Ok records.
Proof.
  induction 1 as [| t rest Ht _ IH]; [reflexivity |].
  now rewrite (records_loop_skip _ _ _ _ Ht).
Qed.

(** X16.  Timestamps given as a non-empty string or a non-empty dict are
    iterated item by item (characters, keys); the items are strings, every
    one is skipped, and [compute_pass] returns no row and no error. *)
Theorem string_or_dict_timestamps_give_no_row
  (data tle : list (string * value)) (line1 line2 name : value)
  (satellite : Satellite) :
  dict_get data "tle" VNone = VDict tle ->
  assoc "line1" tle = Some line1 ->
  assoc "line2" tle = Some line2 ->
  assoc "name" tle = Some name ->
  EarthSatellite line1 line2 name = Ok satellite ->
  (exists s, s <> "" /\ dict_get data "timestamps" VNone = VStr s) \/
  (exists d, d <> [] /\ dict_get data "timestamps" VNone = VDict d) ->
  compute_pass data = Ok [].
Proof.
  intros Htle H1 H2 Hn Hsat Hshape.
  rewrite (compute_pass_with_tle _ _ _ _ _ Htle H1 H2 Hn), Hsat. cbn [bind].
  destruct Hshape as [(s & Hs & ->) | (d & Hd & ->)].
  - assert (Htruthy : truthy (VStr s) = true).
    { cbn. destruct (String.eqb_spec s ""); [contradiction | reflexivity]. }
    rewrite Htruthy. cbn [negb iterate bind].
    apply records_loop_all_skipped.
    apply Forall_forall. intros t Hin. apply in_map_iff in Hin as (c & <- & _). reflexivity.
  - assert (Htruthy : truthy (VDict d) = true) by (destruct d; [contradiction | reflexivity]).
    rewrite Htruthy. cbn [negb iterate bind].
    apply records_loop_all_skipped.
    apply Forall_forall. intros t Hin. apply in_map_iff in Hin as (kv & <- & _). reflexivity.
Qed.

(** X17.  [compute_pass] has no default for the name of the satellite: a TLE
    record with both lines and no [name] stops the script with
    [KeyError], before the propagator is called and before the timestamps
    are read; a TLE that is not a record (a non-empty string or list) stops
    it with [TypeError]. *)
Theorem tle_without_name_is_a_key_error
  (data : list (string * value)) :
  (forall tle line1 line2,
      dict_get data "tle" VNone = VDict tle ->
      assoc "line1" tle = Some line1 ->
      assoc "line2" tle = Some line2 ->
      assoc "name" tle = None ->
      compute_pass data = Raise (KeyError "name")) /\
  (forall s, s <> "" ->
      dict_get data "tle" VNone = VStr s ->
      compute_pass data = Raise (TypeError "string indices must be integers")) /\
  (forall l, l <> [] ->
      dict_get data "tle" VNone = VList l ->
      compute_pass data = Raise (TypeError "list indices must be integers or slices")).
Proof.
  split; [| split].
  - intros tle line1 line2 Htle H1 H2 Hn. unfold compute_pass. cbv zeta. rewrite Htle.
    assert (Htruthy : truthy (VDict tle) = true).
    { destruct tle; [discriminate H1 | reflexivity]. }
    rewrite Htruthy. cbn [negb subscript]. rewrite H1, H2, Hn. reflexivity.
  - intros s Hs Htle. unfold compute_pass. cbv zeta. rewrite Htle.
    assert (Htruthy : truthy (VStr s) = true).
    { cbn. destruct (String.eqb_spec s ""); [contradiction | reflexivity]. }
    rewrite Htruthy. reflexivity.
  - intros l Hl Htle. unfold compute_pass. cbv zeta. rewrite Htle.
    assert (Htruthy : truthy (VList l) = true) by (destruct l; [contradiction | reflexivity]).
    rewrite Htruthy. reflexivity.
Qed.

End WithCollaborators.

Lemma tle_without_name_witness :
  compute_pass (collaborators := mock_collaborators) data_no_name = Raise (KeyError "name").
Proof.
  apply (proj1 (tle_without_name_is_a_key_error (collaborators := mock_collaborators)
                  data_no_name) _ _ _ eq_refl eq_refl eq_refl eq_refl).
Defined.

Lemma nan_or_infinity_witness :
  exists e, compute_pass (collaborators := mock_collaborators) data_infinite_sample = Raise e.
Proof.
  apply (nan_or_infinity_aborts_compute_pass (collaborators := mock_collaborators)
           data_infinite_sample sample_tle_items _ _ _
           [VInt 962131820; VFloat PrimFloat.infinity]
           eq_refl eq_refl eq_refl eq_refl eq_refl).
  right. right. left. reflexivity.
Defined.

Lemma compute_pass_checks_witness :
  compute_pass (collaborators := mock_collaborators) data_no_timestamps
  = Raise (SystemExit "No timestamps found.").
Proof.
  apply (proj2 (compute_pass_checks_tle_before_timestamps
                  (collaborators := mock_collaborators) data_no_timestamps sample_tle_items
                  _ _ _ eq_refl eq_refl eq_refl eq_refl) tt eq_refl eq_refl).
Defined.

Lemma string_timestamps_witness :
  compute_pass (collaborators := mock_collaborators) data_string_timestamps = Ok [].
Proof.
  apply (string_or_dict_timestamps_give_no_row (collaborators := mock_collaborators)
           data_string_timestamps sample_tle_items _ _ _ tt
           eq_refl eq_refl eq_refl eq_refl eq_refl).
  left. exists "962131820". split; [discriminate | reflexivity].
Defined.

End PassDataMore.

(** * Facts about the file discovery and the output names *)

Module CborFilesFacts.

Import CborFiles.

Lemma substring_prefix_suffix (s : string) (n : nat) :
  (n <= String.length s)%nat ->
  s = substring 0 n s ++ substring n (String.length s - n) s.
Proof.
  revert n. induction s as [| c s IH]; intros n Hn.
  - cbn in Hn. assert (n = 0%nat) as -> by lia. reflexivity.
  - destruct n as [| n].
    + cbn [substring append String.length Nat.sub]. f_equal.
      clear IH Hn. induction s as [| d s IH]; [reflexivity |].
      cbn [String.length substring]. f_equal. exact IH.
    + cbn [String.length] in Hn. cbn [substring append String.length Nat.sub]. f_equal.
      apply IH. lia.
Qed.

Lemma substring_whole (s : string) : substring 0 (String.length s) s = s.
Proof. induction s as [| c s IH]; [reflexivity |]. cbn. now rewrite IH. Qed.

Lemma substring_of_append (p suffix : string) :
  substring (String.length p) (String.length suffix) (p ++ suffix) = suffix.
Proof.
  induction p as [| c p IH]; [apply substring_whole |]. exact IH.
Qed.

Lemma length_of_append (p q : string) :
  String.length (p ++ q) = (String.length p + String.length q)%nat.
Proof. induction p as [| c p IH]; [reflexivity |]. cbn. now rewrite IH. Qed.

(** [endswith] holds exactly of the strings that are a stem followed by
    the suffix. *)
Lemma endswith_iff (s suffix : string) :
  endswith s suffix = true <-> exists stem, s = stem ++ suffix.
Proof.
  unfold endswith. cbv zeta. split.
  - intros H. apply andb_prop in H as [Hle Heq].
    apply Nat.leb_le in Hle. apply String.eqb_eq in Heq.
    exists (substring 0 (String.length s - String.length suffix) s).
    pose proof (substring_prefix_suffix s (String.length s - String.length suffix))
      as Hsplit.
    replace (String.length s - (String.length s - String.length suffix))%nat
      with (String.length suffix) in Hsplit by lia.
    rewrite Heq in Hsplit. apply Hsplit. lia.
  - intros [stem ->]. rewrite length_of_append. apply andb_true_intro. split.
    + apply Nat.leb_le. lia.
    + replace (String.length stem + String.length suffix - String.length suffix)%nat
        with (String.length stem) by lia.
      rewrite substring_of_append. apply String.eqb_refl.
Qed.

Lemma endswith_false_iff (s suffix : string) :
  endswith s suffix = false <-> forall stem, s <> stem ++ suffix.
Proof.
  split.
  - intros H stem Heq.
    assert (Ht : endswith s suffix = true) by (apply endswith_iff; eauto).
    congruence.
  - intros H. destruct (endswith s suffix) eqn:E; [| reflexivity].
    apply endswith_iff in E as [stem ->]. now destruct (H stem).
Qed.

(** The loop stops at the first entry with the extension. *)
Lemma first_cbor_Some (listing : list string) (file : string) :
  first_cbor listing = Some file <->
  exists before after,
    listing = (before ++ file :: after)%list /\
    endswith file ".cbor" = true /\
    Forall (fun other => endswith other ".cbor" = false) before.
Proof.
  split.
  - revert file. induction listing as [| f rest IH]; intros file H; [discriminate H |].
    cbn [first_cbor] in H. destruct (endswith f ".cbor") eqn:E.
    + injection H as <-. exists [], rest. auto.
    + destruct (IH file H) as (before & after & -> & Hfile & Hbefore).
      exists (f :: before), after. auto.
  - intros (before & after & -> & Hfile & Hbefore).
    induction Hbefore as [| f before Hf _ IH]; cbn [first_cbor app].
    + now rewrite Hfile.
    + now rewrite Hf.
Qed.

Lemma first_cbor_None (listing : list string) :
  first_cbor listing = None <->
  Forall (fun other => endswith other ".cbor" = false) listing.
Proof.
  induction listing as [| f rest IH]; cbn [first_cbor].
  - split; auto.
  - destruct (endswith f ".cbor") eqn:E; split; intros H.
    + discriminate H.
    + inversion H; congruence.
    + constructor; [exact E | now apply IH].
    + inversion H; now apply IH.
Qed.

Lemma last_char_append (p suffix : string) :
  suffix <> "" -> last_char (p ++ suffix) = last_char suffix.
Proof.
  intros Hne. induction p as [| c p IH]; [reflexivity |].
  cbn [append]. cbn [last_char]. destruct (p ++ suffix) eqn:E; [| exact IH].
  destruct p; [cbn in E; contradiction | discriminate E].
Qed.

Lemma differ_by_last_char (p q s t : string) :
  s <> "" -> t <> "" -> last_char s <> last_char t -> p ++ s <> q ++ t.
Proof.
  intros Hs Ht Hne Heq. apply Hne.
  rewrite <- (last_char_append p s Hs), <- (last_char_append q t Ht). now rewrite Heq.
Qed.

Section Names.

Variable splitext : string -> string * string.

(** What [discover] returns is the first entry with the extension and the
    three names made from it. *)
Lemma discover_Ok (listing : list string) (cbor_file : string) (out : output_files) :
  discover splitext listing = Ok (cbor_file, out) ->
  first_cbor listing = Some cbor_file /\
  out = {| json_file := fst (splitext cbor_file) ++ ".json";
           excel_file := fst (splitext cbor_file) ++ "_pass_data.xlsx";
           map_file := fst (splitext cbor_file) ++ "_map.png" |}.
Proof.
  unfold discover. destruct (first_cbor listing) as [f |]; [| discriminate].
  destruct (String.eqb f ""); [discriminate |].
  intros H. injection H as <- <-. split; reflexivity.
Qed.

(** X18.  The script works on the first entry of the directory listing, in
    the order of the listing, whose name is a stem followed by [.cbor]
    (the stem may be empty, the letters are compared as they are), and it
    exits with its message exactly when the listing has no such entry:
    the test [not cbor_file] never fires on a file that was found. *)
Theorem discover_takes_first_cbor_entry (listing : list string) :
  (forall cbor_file out,
      discover splitext listing = Ok (cbor_file, out) ->
      exists before after,
        listing = (before ++ cbor_file :: after)%list /\
        (exists stem, cbor_file = stem ++ ".cbor") /\
        Forall (fun other => forall stem, other <> stem ++ ".cbor") before) /\
  ((exists found, discover splitext listing = Ok found) <->
   Exists (fun file => exists stem, file = stem ++ ".cbor") listing) /\
  (discover splitext listing = Raise (SystemExit "No .cbor file found in this directory.") <->
   Forall (fun other => forall stem, other <> stem ++ ".cbor") listing).
Proof.
  split; [| split].
  - intros cbor_file out H. apply discover_Ok in H as [H _].
    apply first_cbor_Some in H as (before & after & -> & Hfile & Hbefore).
    exists before, after. split; [reflexivity |]. split.
    + now apply endswith_iff.
    + eapply Forall_impl; [| exact Hbefore]. intros other. apply endswith_false_iff.
  - split.
    + intros [[cbor_file out] H]. apply discover_Ok in H as [H _].
      apply first_cbor_Some in H as (before & after & -> & Hfile & _).
      apply Exists_exists. exists cbor_file. split.
      * apply in_or_app. right. now left.
      * now apply endswith_iff.
    + intros H. unfold discover.
      destruct (first_cbor listing) as [f |] eqn:E.
      * apply first_cbor_Some in E as (_ & _ & _ & Hf & _).
        apply endswith_iff in Hf as [stem ->].
        destruct (String.eqb_spec (stem ++ ".cbor") "") as [Hempty |]; [| eauto].
        destruct stem; discriminate Hempty.
      * exfalso. apply first_cbor_None in E.
        apply Exists_exists in H as (file & Hin & Hfile).
        rewrite Forall_forall in E. specialize (E file Hin).
        apply endswith_iff in Hfile. congruence.
  - unfold discover. destruct (first_cbor listing) as [f |] eqn:E; split; intros H.
    + exfalso. apply first_cbor_Some in E as (_ & _ & _ & Hf & _).
      apply endswith_iff in Hf as [stem ->].
      destruct (String.eqb_spec (stem ++ ".cbor") "") as [Hempty |]; [| discriminate H].
      destruct stem; discriminate Hempty.
    + exfalso. apply first_cbor_Some in E as (before & after & -> & Hf & _).
      rewrite Forall_forall in H.
      apply endswith_iff in Hf as [stem Hstem].
      assert (Hin : In f (before ++ f :: after)) by (apply in_or_app; right; now left).
      exact (H f Hin stem Hstem).
    + apply first_cbor_None in E. eapply Forall_impl; [| exact E].
      intros other. apply endswith_false_iff.
    + reflexivity.
Qed.

(** X19.  Whatever [os.path.splitext] returns, the three files the script
    writes have names different from the name of the input and from one
    another: the input is not overwritten and no output overwrites
    another. *)
Theorem outputs_do_not_overwrite_the_input
  (listing : list string) (cbor_file : string) (out : output_files) :
  discover splitext listing = Ok (cbor_file, out) ->
  json_file out <> cbor_file /\
  excel_file out <> cbor_file /\
  map_file out <> cbor_file /\
  json_file out <> excel_file out /\
  json_file out <> map_file out /\
  excel_file out <> map_file out.
Proof.
  intros H. apply discover_Ok in H as [H ->]. cbn [json_file excel_file map_file].
  apply first_cbor_Some in H as (_ & _ & _ & Hf & _).
  apply endswith_iff in Hf as [stem ->].
  repeat split; apply differ_by_last_char; discriminate.
Qed.

End Names.

Lemma discover_takes_first_cbor_witness :
  exists before after,
    sample_listing = (before ++ "pass_0628.cbor" :: after)%list /\
    (exists stem, "pass_0628.cbor" = stem ++ ".cbor") /\
    Forall (fun other => forall stem, other <> stem ++ ".cbor") before.
Proof.
  apply (proj1 (discover_takes_first_cbor_entry splitext_four sample_listing)
               "pass_0628.cbor"
               {| json_file := "pass_0628.json";
                  excel_file := "pass_0628_pass_data.xlsx";
                  map_file := "pass_0628_map.png" |}).
  reflexivity.
Defined.

Lemma outputs_do_not_overwrite_witness :
  "pass_0628.json" <> "pass_0628.cbor" /\
  "pass_0628_pass_data.xlsx" <> "pass_0628.cbor" /\
  "pass_0628_map.png" <> "pass_0628.cbor" /\
  "pass_0628.json" <> "pass_0628_pass_data.xlsx" /\
  "pass_0628.json" <> "pass_0628_map.png" /\
  "pass_0628_pass_data.xlsx" <> "pass_0628_map.png".
Proof.
  apply (outputs_do_not_overwrite_the_input splitext_four sample_listing
           "pass_0628.cbor"
           {| json_file := "pass_0628.json";
              excel_file := "pass_0628_pass_data.xlsx";
              map_file := "pass_0628_map.png" |}).
  reflexivity.
Defined.

End CborFilesFacts.
